(** * GoViet: the hybrid retrieval pipeline of [hybrid_chat.py] and [app.py]

    A shallow embedding of the Python sources and the properties of the
    retrieval-fusion pipeline: the embedding cache, the vector retriever, the
    graph expander, the theme filter, the prompt assembler and the completion
    client.

    Conventions of the model.
    - A Python [str] is a [string]: the bytes of the text in UTF-8.  A
      character is a byte that is not of the form 10xxxxxx together with the
      bytes of that form after it; slicing and iteration go by characters.
      Equality and the substring test are those of the bytes, which is the
      same for UTF-8.  The case mapping, the white space and the printable
      characters of Unicode are tables of the interpreter: [s.lower()],
      [s.strip()] and [repr(s)] are computed here for ASCII text and are
      parameters of the model ([Unicode]) for any other text.
    - A Python [dict] is an association list in insertion order; a lookup
      takes the first binding of the key.
    - A value of unknown type is a [value]; an operation the Python object does
      not support raises, which is a [Raise] result here.
    - The external services (embedding, vector index, graph store, chat
      completion) are functions of an abstract [World]; each call may return
      or raise.  Every request sent and every line printed is recorded in the
      trace of the state.  Opening and closing the graph session are not
      points of failure. *)

From Stdlib Require Import ZArith List String Ascii Bool Lia PrimFloat.
From stdpp Require Import base option gmap strings pretty.

Import ListNotations.
Local Open Scope string_scope.
Local Open Scope Z_scope.

(* 0.3 stands for the double nearest to it, as in Python; [value] nests
   through lists and pairs and needs no induction scheme of its own. *)
Set Warnings "-inexact-float,-register-all".

(** ** Exceptions and results *)

Inductive exn :=
| KeyError (key : string)
| IndexError (msg : string)
| TypeError (msg : string)
| AttributeError (msg : string)
| ServiceError (msg : string).

Inductive result (A : Type) :=
| Ok (a : A)
| Raise (e : exn).
Arguments Ok {A} a.
Arguments Raise {A} e.

#[global] Instance result_ret : MRet result := fun _ a => Ok a.
#[global] Instance result_bind : MBind result := fun _ _ f r =>
  match r with
  | Ok a => f a
  | Raise e => Raise e
  end.
#[global] Instance result_fmap : FMap result := fun _ _ f r =>
  match r with
  | Ok a => Ok (f a)
  | Raise e => Raise e
  end.

Definition is_ok {A} (r : result A) : bool :=
  match r with Ok _ => true | Raise _ => false end.

(** ** Strings *)

Definition dquote : ascii := ascii_of_nat 34.
Definition squote : ascii := ascii_of_nat 39.
Definition backslash : ascii := ascii_of_nat 92.
Definition newline : string := String (ascii_of_nat 10) EmptyString.

(** The text is ASCII: every byte is below 128. *)
Fixpoint is_ascii (s : string) : bool :=
  match s with
  | EmptyString => true
  | String c r => (nat_of_ascii c <? 128)%nat && is_ascii r
  end.

(** A byte that continues the character begun before it: 10xxxxxx. *)
Definition is_continuation (c : ascii) : bool :=
  let n := nat_of_ascii c in
  (128 <=? n)%nat && (n <? 192)%nat.

(** What the interpreter does with a text that has a character outside
    ASCII: [s.lower()], [s.strip()] and [repr(s)] follow the Unicode tables
    of the interpreter, and are parameters of the model. *)
Class Unicode := {
  unicode_lower : string -> string;
  unicode_strip : string -> string;
  unicode_repr : string -> string
}.

(** [c.lower()] on one byte of ASCII: the letters A..Z move to a..z. *)
Definition lower_ascii (c : ascii) : ascii :=
  let n := nat_of_ascii c in
  if (65 <=? n)%nat && (n <=? 90)%nat then ascii_of_nat (n + 32) else c.

(** [s.lower()] of an ASCII text. *)
Fixpoint ascii_lower (s : string) : string :=
  match s with
  | EmptyString => EmptyString
  | String c r => String (lower_ascii c) (ascii_lower r)
  end.

(** [s.lower()] *)
Definition str_lower {unicode : Unicode} (s : string) : string :=
  if is_ascii s then ascii_lower s else unicode_lower s.

(** [s.startswith(p)] *)
Fixpoint str_startswith (p s : string) : bool :=
  match p, s with
  | EmptyString, _ => true
  | String a p', String b s' => Ascii.eqb a b && str_startswith p' s'
  | String _ _, EmptyString => false
  end.

(** [sub in s] for two strings. *)
Fixpoint str_contains (sub s : string) : bool :=
  str_startswith sub s ||
  match s with
  | EmptyString => false
  | String _ r => str_contains sub r
  end.

(** [len(s)]: the number of characters. *)
Fixpoint str_len (s : string) : nat :=
  match s with
  | EmptyString => O
  | String c r => if is_continuation c then str_len r else S (str_len r)
  end.

(** [s[:n]]: the first [n] characters.  A continuation byte belongs to the
    character before it; the next first byte starts a character, which is
    taken while [n] is not used up. *)
Fixpoint str_take (n : nat) (s : string) : string :=
  match s with
  | EmptyString => EmptyString
  | String c r =>
      if is_continuation c then String c (str_take n r)
      else
        match n with
        | O => EmptyString
        | S k => String c (str_take k r)
        end
  end.

(** [sep.join(parts)] for a list of strings. *)
Fixpoint str_join (sep : string) (parts : list string) : string :=
  match parts with
  | [] => EmptyString
  | [p] => p
  | p :: rest => p +:+ sep +:+ str_join sep rest
  end.

(** The characters of a string, each as a string of its own. *)
Fixpoint str_chars (s : string) : list string :=
  match s with
  | EmptyString => []
  | String c r =>
      let starts_inside := match r with String d _ => is_continuation d | EmptyString => false end in
      match str_chars r with
      | first :: others =>
          if starts_inside then String c first :: others
          else String c EmptyString :: first :: others
      | [] => [String c EmptyString]
      end
  end.

(** White space of ASCII: tab to carriage return, the four separators, and
    the space. *)
Definition is_space (c : ascii) : bool :=
  let n := nat_of_ascii c in
  ((9 <=? n)%nat && (n <=? 13)%nat) || ((28 <=? n)%nat && (n <=? 32)%nat).

Fixpoint ascii_lstrip (s : string) : string :=
  match s with
  | EmptyString => EmptyString
  | String c r => if is_space c then ascii_lstrip r else s
  end.

Fixpoint ascii_rstrip (s : string) : string :=
  match s with
  | EmptyString => EmptyString
  | String c r =>
      match ascii_rstrip r with
      | EmptyString => if is_space c then EmptyString else String c EmptyString
      | r' => String c r'
      end
  end.

(** [s.strip()] of an ASCII text. *)
Definition ascii_strip (s : string) : string := ascii_rstrip (ascii_lstrip s).

(** [s.strip()] *)
Definition str_strip {unicode : Unicode} (s : string) : string :=
  if is_ascii s then ascii_strip s else unicode_strip s.

Definition hex_digit (n : nat) : ascii :=
  ascii_of_nat (if (n <? 10)%nat then 48 + n else 87 + n).

(** One character of [repr(s)] for an ASCII text and the chosen quote. *)
Definition repr_char (quote c : ascii) : string :=
  let n := nat_of_ascii c in
  if Ascii.eqb c quote || Ascii.eqb c backslash then String backslash (String c EmptyString)
  else if (n =? 9)%nat then String backslash "t"
  else if (n =? 10)%nat then String backslash "n"
  else if (n =? 13)%nat then String backslash "r"
  else if (n <? 32)%nat || (n =? 127)%nat then
    String backslash (String "x" (String (hex_digit (n / 16)) (String (hex_digit (n mod 16)) EmptyString)))
  else String c EmptyString.

Fixpoint repr_body (quote : ascii) (s : string) : string :=
  match s with
  | EmptyString => EmptyString
  | String c r => repr_char quote c +:+ repr_body quote r
  end.

Fixpoint has_char (c : ascii) (s : string) : bool :=
  match s with
  | EmptyString => false
  | String d r => Ascii.eqb c d || has_char c r
  end.

(** [repr(s)] of an ASCII text: single quotes, unless the text has a single
    quote and no double quote. *)
Definition ascii_repr (s : string) : string :=
  let quote := if has_char squote s && negb (has_char dquote s) then dquote else squote in
  String quote (repr_body quote s +:+ String quote EmptyString).

(** [repr(s)] of a string. *)
Definition repr_str {unicode : Unicode} (s : string) : string :=
  if is_ascii s then ascii_repr s else unicode_repr s.

(** ** Values *)

Inductive value :=
| VNone
| VBool (b : bool)
| VInt (z : Z)
| VFloat (f : float)
| VStr (s : string)
| VList (items : list value)
| VDict (entries : list (string * value)).

(** A Python dict with string keys, in insertion order. *)
Definition dict : Type := list (string * value).

Definition type_name (v : value) : string :=
  match v with
  | VNone => "NoneType"
  | VBool _ => "bool"
  | VInt _ => "int"
  | VFloat _ => "float"
  | VStr _ => "str"
  | VList _ => "list"
  | VDict _ => "dict"
  end.

(** [bool(v)] *)
Definition truthy (v : value) : bool :=
  match v with
  | VNone => false
  | VBool b => b
  | VInt z => negb (z =? 0)
  | VFloat f => negb (PrimFloat.eqb f 0%float)
  | VStr s => negb (String.eqb s "")
  | VList l => match l with [] => false | _ => true end
  | VDict d => match d with [] => false | _ => true end
  end.

(** [a or b] *)
Definition py_or (a b : value) : value := if truthy a then a else b.

(** The first binding of [k] in an association list. *)
Fixpoint assoc {A} (k : string) (d : list (string * A)) : option A :=
  match d with
  | [] => None
  | (k', v) :: rest => if String.eqb k k' then Some v else assoc k rest
  end.

(** [d.get(k, dflt)] *)
Definition dict_get (d : dict) (k : string) (dflt : value) : value :=
  match assoc k d with
  | Some v => v
  | None => dflt
  end.

(** [d[k]] *)
Definition dict_item (d : dict) (k : string) : result value :=
  match assoc k d with
  | Some v => Ok v
  | None => Raise (KeyError k)
  end.

(** [v.get(k, dflt)] on a value that may or may not be a dict. *)
Definition value_get (v : value) (k : string) (dflt : value) : result value :=
  match v with
  | VDict d => Ok (dict_get d k dflt)
  | _ => Raise (AttributeError ("'" +:+ type_name v +:+ "' object has no attribute 'get'"))
  end.

(** [v.lower()] *)
Definition value_lower {unicode : Unicode} (v : value) : result string :=
  match v with
  | VStr s => Ok (str_lower s)
  | _ => Raise (AttributeError ("'" +:+ type_name v +:+ "' object has no attribute 'lower'"))
  end.

(** [v[:n]]: a string and a list are cut; a dict takes the slice for a key,
    which is not hashable. *)
Definition value_take (n : nat) (v : value) : result value :=
  match v with
  | VStr s => Ok (VStr (str_take n s))
  | VList l => Ok (VList (firstn n l))
  | VDict _ => Raise (TypeError "unhashable type: 'slice'")
  | _ => Raise (TypeError ("'" +:+ type_name v +:+ "' object is not subscriptable"))
  end.

(** [s in v] for a string [s]: an element of a list, a key of a dict, a
    substring of a string. *)
Definition value_contains (s : string) (v : value) : result bool :=
  match v with
  | VList l => Ok (existsb (fun x => match x with VStr t => String.eqb s t | _ => false end) l)
  | VDict d => Ok (existsb (fun kv => String.eqb s (fst kv)) d)
  | VStr t => Ok (str_contains s t)
  | _ => Raise (TypeError ("argument of type '" +:+ type_name v +:+ "' is not iterable"))
  end.

(** The items of [sep.join(...)] must all be strings. *)
Fixpoint join_items (i : nat) (l : list value) : result (list string) :=
  match l with
  | [] => Ok []
  | VStr s :: rest => cons s <$> join_items (S i) rest
  | x :: _ =>
      Raise (TypeError ("sequence item " +:+ pretty i +:+ ": expected str instance, "
                        +:+ type_name x +:+ " found"))
  end.

(** [sep.join(v)] *)
Definition value_join (sep : string) (v : value) : result string :=
  match v with
  | VList l => str_join sep <$> join_items 0 l
  | VStr s => Ok (str_join sep (str_chars s))
  | VDict d => Ok (str_join sep (map fst d))
  | _ => Raise (TypeError "can only join an iterable")
  end.

(** ** Exceptions as text *)

(** [str(e)] *)
Definition exn_str {unicode : Unicode} (e : exn) : string :=
  match e with
  | KeyError k => repr_str k
  | IndexError m | TypeError m | AttributeError m | ServiceError m => m
  end.

(** [xs[0]] *)
Definition first_item {A} (xs : list A) : result A :=
  match xs with
  | x :: _ => Ok x
  | [] => Raise (IndexError "list index out of range")
  end.

(** [[f(x) for x in xs]] where [f] may raise. *)
Fixpoint map_result {A B} (f : A -> result B) (xs : list A) : result (list B) :=
  match xs with
  | [] => Ok []
  | x :: rest => y ← f x; cons y <$> map_result f rest
  end.

(** ** Configuration *)

Definition EMBED_MODEL : string := "text-embedding-3-small".
Definition CHAT_MODEL : string := "gpt-4o-mini".
Definition TOP_K : nat := 5.

(** An embedding: a list of floats. *)
Definition vector : Type := list float.

(** ** What the graph store returns *)

(** One record of the per-entity query: [type(r)] is a string and [labels(m)]
    a list of strings; the node properties are whatever the store holds, or
    [None]. *)
Record neighbour_row := {
  row_rel : string;
  row_labels : list string;
  row_id : value;
  row_name : value;
  row_type : value;
  row_description : value;
  row_tags : value
}.

(** One record of the city-connectivity query. *)
Record city_row := {
  from_city : value;
  to_city : value;
  to_city_name : value
}.

(** What iterating the result of [session.run] gives: the records fetched in
    order, then either the end of the result or an exception.  When
    [session.run] itself raises, no record was fetched. *)
Record cursor (R : Type) := {
  fetched : list R;
  failure : option exn
}.
Arguments fetched {R} c.
Arguments failure {R} c.

(** The first-hop query of [fetch_graph_context]. *)
Definition q1 : string :=
  "MATCH (n:Entity {id:$nid})-[r]-(m:Entity) " +:+
  "RETURN type(r) AS rel, labels(m) AS labels, m.id AS id, " +:+
  "m.name AS name, m.type AS type, m.description AS description, " +:+
  "m.tags AS tags " +:+
  "LIMIT 10".

(** The city-to-city query of [fetch_graph_context]. *)
Definition q2 : string :=
  "MATCH (c1:City)-[r:Connected_To]->(c2:City) " +:+
  "WHERE c1.id IN $city_ids " +:+
  "RETURN c1.id AS from_city, c2.id AS to_city, c2.name AS to_city_name " +:+
  "LIMIT 5".

Definition digit_of (c : ascii) : option nat :=
  let n := nat_of_ascii c in
  if (48 <=? n)%nat && (n <=? 57)%nat then Some (n - 48)%nat else None.

Fixpoint parse_nat (s : string) (acc : nat) : option nat :=
  match s with
  | EmptyString => Some acc
  | String c r =>
      match digit_of c with
      | Some d => parse_nat r (10 * acc + d)%nat
      | None => None
      end
  end.

Fixpoint str_drop (n : nat) (s : string) : string :=
  match n, s with
  | O, _ => s
  | S _, EmptyString => EmptyString
  | S k, String _ r => str_drop k r
  end.

(** The bound of the [LIMIT n] clause that ends a Cypher text. *)
Fixpoint cypher_limit (q : string) : option nat :=
  match q with
  | EmptyString => None
  | String _ r =>
      if str_startswith "LIMIT " q then
        match str_drop 6 q with
        | EmptyString => None
        | digits => parse_nat digits 0
        end
      else cypher_limit r
  end.

(** ** Requests and output *)

Inductive event :=
| Printed (line : string)
| EmbeddingRequest (model : string) (input : list string)
| IndexQuery (vec : vector) (top_k : nat)
| GraphQuery (query : string) (params : dict)
| ChatRequest (model : string) (messages : list dict) (max_tokens : Z) (temperature : float).

Definition is_embedding_request (e : event) : bool :=
  match e with EmbeddingRequest _ _ => true | _ => false end.

Section Pipeline.

Context {unicode : Unicode}.

(** [repr] of a float and [format(v, '.Nf')] are the interpreter's: they are
    parameters of the model. *)
Variable float_repr : float -> string.
Variable format_fixed : nat -> value -> result string.

(** [repr(v)] *)
Fixpoint py_repr (v : value) : string :=
  match v with
  | VNone => "None"
  | VBool true => "True"
  | VBool false => "False"
  | VInt z => pretty z
  | VFloat f => float_repr f
  | VStr s => repr_str s
  | VList l => "[" +:+ str_join ", " (map py_repr l) +:+ "]"
  | VDict d =>
      "{" +:+ str_join ", " (map (fun kv => repr_str (fst kv) +:+ ": " +:+ py_repr (snd kv)) d) +:+ "}"
  end.

(** [str(v)], also what an f-string writes for [{v}]. *)
Definition py_str (v : value) : string :=
  match v with
  | VStr s => s
  | _ => py_repr v
  end.

(** ** The theme filter ([filter_by_theme]) *)

Definition theme_keywords : list (string * list string) :=
  [ ("romantic", ["romantic"; "couple"; "sunset"; "beach"; "spa"; "dinner"; "cruise"]);
    ("adventure", ["hiking"; "trekking"; "mountain"; "adventure"; "rafting"; "cycling"]);
    ("cultural", ["temple"; "museum"; "historical"; "culture"; "heritage"; "traditional"]);
    ("family", ["family"; "kids"; "zoo"; "park"; "entertainment"]) ].

(** The body of the loop up to the test: does some keyword occur in the tags,
    the description or the name of [fact]? *)
Definition fact_matches (keywords : list string) (fact : dict) : result bool :=
  let tags := dict_get fact "target_tags" (VList []) in
  desc ← value_lower (dict_get fact "target_desc" (VStr ""));
  name ← value_lower (dict_get fact "target_name" (VStr ""));
  mret (existsb (fun kw => str_contains kw (str_lower (py_str tags))
                           || str_contains kw desc || str_contains kw name) keywords).

(** [for fact in facts: ... filtered.append(fact)] *)
Fixpoint theme_loop (keywords : list string) (facts filtered : list dict) : result (list dict) :=
  match facts with
  | [] => Ok filtered
  | fact :: rest =>
      hit ← fact_matches keywords fact;
      theme_loop keywords rest (if hit : bool then filtered ++ [fact] else filtered)
  end.

Definition filter_by_theme (facts : list dict) (theme : string) : result (list dict) :=
  let keywords := default [] (assoc (str_lower theme) theme_keywords) in
  match keywords with
  | [] => Ok facts
  | _ =>
      filtered ← theme_loop keywords facts [];
      mret (match filtered with [] => firstn 10 facts | _ => filtered end)
  end.


(** ** The prompt assembler ([build_prompt]) *)

Definition system_prompt : string :=
"You are an expert Vietnam travel assistant specializing in creating personalized itineraries.

Your approach:
1. ANALYZE the user's preferences (duration, theme, interests)
2. IDENTIFY the most relevant cities and attractions from the provided context
3. STRUCTURE a day-by-day itinerary with logical flow
4. INCLUDE specific node IDs as references (e.g., [attraction_123])
5. PROVIDE practical tips (travel time, best times to visit)

Format your response as:
- Brief introduction matching the theme
- Day-by-day breakdown with morning/afternoon/evening activities
- Accommodation suggestions
- Practical travel tips

Be concise but detailed. Cite node IDs for credibility.".

(** The theme named in the query, or the empty string. *)
Definition detect_theme (user_query : string) : string :=
  let q := str_lower user_query in
  if str_contains "romantic" q then "romantic"
  else if str_contains "adventure" q then "adventure"
  else if str_contains "cultural" q then "cultural"
  else if str_contains "family" q then "family"
  else "".

(** [" | Tags: " + ', '.join(tags[:3])] *)
Definition tags_suffix (tags : value) : result string :=
  first3 ← value_take 3 tags;
  joined ← value_join ", " first3;
  mret (" | Tags: " +:+ joined).

(** The body of the loop over [pinecone_matches[:8]]: one line per match. *)
Definition render_match (m : dict) : result string :=
  let meta := dict_get m "metadata" (VDict []) in
  let score := dict_get m "score" (VInt 0) in
  mid ← dict_item m "id";
  name ← value_get meta "name" (VStr "N/A");
  type ← value_get meta "type" (VStr "N/A");
  city ← value_get meta "city" (VStr "N/A");
  shown ← format_fixed 3 score;
  let snippet := "- [" +:+ py_str mid +:+ "] " +:+ py_str name +:+ " (" +:+ py_str type +:+ ") "
                 +:+ "in " +:+ py_str city +:+ " - Score: " +:+ shown in
  tags ← value_get meta "tags" VNone;
  if truthy tags then
    all_tags ← value_get meta "tags" (VList []);
    suffix ← tags_suffix all_tags;
    mret (snippet +:+ suffix)
  else mret snippet.

(** The body of the loop over [graph_facts[:20]]: one line per fact. *)
Definition render_fact (f : dict) : result string :=
  source ← dict_item f "source";
  rel ← dict_item f "rel";
  target_id ← dict_item f "target_id";
  target_name ← dict_item f "target_name";
  target_type ← dict_item f "target_type";
  target_desc ← dict_item f "target_desc";
  desc ← value_take 200 target_desc;
  let relation := "- [" +:+ py_str source +:+ "] --" +:+ py_str rel +:+ "--> [" +:+ py_str target_id +:+ "] "
                  +:+ py_str target_name +:+ " (" +:+ py_str target_type +:+ "): " +:+ py_str desc in
  if truthy (dict_get f "target_tags" VNone) then
    tags ← dict_item f "target_tags";
    suffix ← tags_suffix tags;
    mret (relation +:+ suffix)
  else mret relation.

(** One line of the city-connections block. *)
Definition render_connection (c : dict) : result string :=
  origin ← dict_item c "from_city";
  target ← dict_item c "to_city_name";
  mret ("- " +:+ py_str origin +:+ " → " +:+ py_str target).

(** [vec_context]: the lines of the first 8 matches. *)
Definition vec_context_of (pinecone_matches : list dict) : result (list string) :=
  map_result render_match (firstn 8 pinecone_matches).

(** [graph_context]: the lines of the first 20 facts. *)
Definition graph_context_of (graph_facts : list dict) : result (list string) :=
  map_result render_fact (firstn 20 graph_facts).

Definition city_context_of (city_connections : list dict) : result string :=
  match city_connections with
  | [] => Ok ""
  | _ =>
      lines ← map_result render_connection city_connections;
      mret (newline +:+ newline +:+ "City Connections (for multi-day planning):" +:+ newline
            +:+ str_join newline lines)
  end.

(** The text of the user message, from the rendered parts. *)
Definition user_content (user_query : string) (vec_context graph_context : list string)
    (city_context : string) : string :=
  "User Query: " +:+ user_query +:+ newline +:+ newline
  +:+ "=== TOP SEMANTIC MATCHES (from vector search) ===" +:+ newline
  +:+ str_join newline (firstn 10 vec_context) +:+ newline +:+ newline
  +:+ "=== KNOWLEDGE GRAPH RELATIONSHIPS ===" +:+ newline
  +:+ str_join newline (firstn 20 graph_context)
  +:+ city_context +:+ newline +:+ newline
  +:+ "Based on the above context, create a detailed response. "
  +:+ "Use node IDs in [brackets] when referencing specific places.".

Definition build_prompt (user_query : string) (pinecone_matches graph_facts city_connections : list dict)
    : result (list dict) :=
  let theme := detect_theme user_query in
  graph_facts ←
    (if negb (String.eqb theme "") && match graph_facts with [] => false | _ => true end
     then filter_by_theme graph_facts theme
     else Ok graph_facts);
  vec_context ← vec_context_of pinecone_matches;
  graph_context ← graph_context_of graph_facts;
  city_context ← city_context_of city_connections;
  mret [ [("role", VStr "system"); ("content", VStr system_prompt)];
         [("role", VStr "user");
          ("content", VStr (user_content user_query vec_context graph_context city_context))] ].

(** ** The external services and the process state *)

Variable World : Type.

(** [client.embeddings.create(model=..., input=...)]: the embeddings of
    [resp.data], or an exception. *)
Variable embeddings_create : string -> list string -> World -> result (list vector) * World.

(** [index.query(vector=..., top_k=..., include_metadata=True,
    include_values=False)]: the matches of the response, or an exception. *)
Variable index_query : vector -> nat -> World -> result (list dict) * World.

(** [session.run(query, nid=...)] and the iteration over its records. *)
Variable run_neighbours : string -> value -> World -> cursor neighbour_row * World.

(** [session.run(query, city_ids=...)] and the iteration over its records. *)
Variable run_cities : string -> list value -> World -> cursor city_row * World.

(** [client.chat.completions.create(model=..., messages=..., max_tokens=...,
    temperature=...)]: the message content of each of [resp.choices], or an
    exception. *)
Variable chat_create : string -> list dict -> Z -> float -> World -> result (list value) * World.

(** [hashlib.md5(text.encode()).hexdigest()] *)
Variable md5_hexdigest : string -> string.

(** [config.PINECONE_VECTOR_DIM] *)
Variable PINECONE_VECTOR_DIM : Z.

Record state := {
  EMBEDDING_CACHE : gmap string vector;
  world : World;
  trace : list event
}.

Definition set_world (w : World) (st : state) : state :=
  {| EMBEDDING_CACHE := EMBEDDING_CACHE st; world := w; trace := trace st |}.

Definition emit (e : event) (st : state) : state :=
  {| EMBEDDING_CACHE := EMBEDDING_CACHE st; world := world st; trace := trace st ++ [e] |}.

(** [print(line)] *)
Definition print (line : string) (st : state) : state := emit (Printed line) st.

Definition cache_store (key : string) (v : vector) (st : state) : state :=
  {| EMBEDDING_CACHE := <[key := v]> (EMBEDDING_CACHE st); world := world st; trace := trace st |}.

(** ** The embedding cache and client ([embed_text]) *)

Definition embed_text (text : string) (st : state) : vector * state :=
  let cache_key := md5_hexdigest text in
  match EMBEDDING_CACHE st !! cache_key with
  | Some cached => (cached, st)
  | None =>
      let '(resp, w) := embeddings_create EMBED_MODEL [text] (world st) in
      let st := set_world w (emit (EmbeddingRequest EMBED_MODEL [text]) st) in
      match resp ≫= first_item with
      | Ok embedding => (embedding, cache_store cache_key embedding st)
      | Raise e =>
          (repeat 0%float (Z.to_nat PINECONE_VECTOR_DIM),
           print ("Error generating embedding: " +:+ exn_str e) st)
      end
  end.

(** ** The vector retriever ([pinecone_query]) *)

Definition pinecone_query (query_text : string) (top_k : nat) (st : state) : list dict * state :=
  let '(vec, st) := embed_text query_text st in
  let '(res, w) := index_query vec top_k (world st) in
  let st := set_world w (emit (IndexQuery vec top_k) st) in
  match res with
  | Ok matches =>
      (matches, print ("✓ Pinecone returned " +:+ pretty (length matches) +:+ " results") st)
  | Raise e => ([], print ("✗ Pinecone query failed: " +:+ exn_str e) st)
  end.

(** ** The graph expander ([fetch_graph_context]) *)

(** The dict appended for one record [r] of the query for [nid]. *)
Definition fact_of (nid : value) (r : neighbour_row) : result dict :=
  desc ← value_take 400 (py_or (row_description r) (VStr ""));
  mret [ ("source", nid);
         ("rel", VStr (row_rel r));
         ("target_id", row_id r);
         ("target_name", row_name r);
         ("target_type", row_type r);
         ("target_desc", desc);
         ("target_tags", row_tags r);
         ("labels", VList (map VStr (row_labels r))) ].

(** [for r in recs: facts.append({...})]: the facts so far, and the exception
    that stopped the loop, if any. *)
Fixpoint append_facts (nid : value) (rows : list neighbour_row) (facts : list dict)
    : list dict * option exn :=
  match rows with
  | [] => (facts, None)
  | r :: rest =>
      match fact_of nid r with
      | Ok f => append_facts nid rest (facts ++ [f])
      | Raise e => (facts, Some e)
      end
  end.

(** One turn of [for nid in node_ids]: the query, the loop over its records,
    and the handler of the [try]. *)
Definition expand_node (nid : value) (acc : list dict * state) : list dict * state :=
  let '(facts, st) := acc in
  let '(recs, w) := run_neighbours q1 nid (world st) in
  let st := set_world w (emit (GraphQuery q1 [("nid", nid)]) st) in
  let '(facts, stopped) := append_facts nid (fetched recs) facts in
  match (match stopped with Some e => Some e | None => failure recs end) with
  | None => (facts, st)
  | Some e =>
      (facts, print ("Error fetching graph context for " +:+ py_str nid +:+ ": " +:+ exn_str e) st)
  end.

(** [[f["source"] for f in facts if "City" in f.get("labels", [])]] *)
Fixpoint city_ids_of (facts : list dict) : result (list value) :=
  match facts with
  | [] => Ok []
  | f :: rest =>
      is_city ← value_contains "City" (dict_get f "labels" (VList []));
      if is_city : bool then
        source ← dict_item f "source";
        cons source <$> city_ids_of rest
      else city_ids_of rest
  end.

(** [dict(rec)] *)
Definition connection_of (r : city_row) : dict :=
  [ ("from_city", from_city r); ("to_city", to_city r); ("to_city_name", to_city_name r) ].

(** [if city_ids: ...]: the connectivity query and its handler. *)
Definition fetch_city_connections (city_ids : list value) (st : state) : list dict * state :=
  match city_ids with
  | [] => ([], st)
  | _ =>
      let '(city_recs, w) := run_cities q2 city_ids (world st) in
      let st := set_world w (emit (GraphQuery q2 [("city_ids", VList city_ids)]) st) in
      match failure city_recs with
      | None => (map connection_of (fetched city_recs), st)
      | Some e => ([], print ("Error fetching city connections: " +:+ exn_str e) st)
      end
  end.

Definition fetch_graph_context (node_ids : list value) (st : state)
    : result (list dict * list dict) * state :=
  let '(facts, st) := fold_left (fun acc nid => expand_node nid acc) node_ids ([], st) in
  match city_ids_of facts with
  | Raise e => (Raise e, st)
  | Ok city_ids =>
      let '(city_connections, st) := fetch_city_connections city_ids st in
      (Ok (facts, city_connections),
       print ("✓ Neo4j returned " +:+ pretty (length facts) +:+ " relationships + "
              +:+ pretty (length city_connections) +:+ " city connections") st)
  end.

(** ** The completion client ([call_chat]) *)

Definition call_chat (prompt_messages : list dict) (st : state) : value * state :=
  let '(resp, w) := chat_create CHAT_MODEL prompt_messages 800 0.3%float (world st) in
  let st := set_world w (emit (ChatRequest CHAT_MODEL prompt_messages 800 0.3%float) st) in
  match resp ≫= first_item with
  | Ok content => (content, st)
  | Raise e => (VStr ("Error calling OpenAI: " +:+ exn_str e), st)
  end.

(** ** The web endpoint ([ask] of [app.py]) *)

(** The JSON body and the status of a response. *)
Definition response : Type := dict * Z.

Definition ask (query : string) (st : state) : response * state :=
  let query := str_strip query in
  if String.eqb query "" then (([("error", VStr "Empty query")], 400), st)
  else
    let '(matches, st) := pinecone_query query TOP_K st in
    match map_result (fun m => dict_item m "id") matches with
    | Raise e => (([("error", VStr (exn_str e))], 500), st)
    | Ok match_ids =>
        match fetch_graph_context match_ids st with
        | (Raise e, st) => (([("error", VStr (exn_str e))], 500), st)
        | (Ok (graph_facts, city_connections), st) =>
            match build_prompt query matches graph_facts city_connections with
            | Raise e => (([("error", VStr (exn_str e))], 500), st)
            | Ok prompt =>
                let '(answer, st) := call_chat prompt st in
                (([("answer", answer)], 200), st)
            end
        end
    end.

(** ** The summary of the top matches ([summarize_top_nodes]) *)

(** The line of match number [i]. *)
Definition summary_line (i : nat) (m : dict) : result string :=
  let meta := dict_get m "metadata" (VDict []) in
  let score := dict_get m "score" (VInt 0) in
  name ← value_get meta "name" (VStr "Unknown");
  type ← value_get meta "type" (VStr "N/A");
  city ← value_get meta "city" (VStr "N/A");
  shown ← format_fixed 2 score;
  mret (pretty i +:+ ". " +:+ py_str name +:+ " (" +:+ py_str type +:+ ") "
        +:+ "in " +:+ py_str city +:+ " - Relevance: " +:+ shown).

(** [for i, match in enumerate(..., i): summary_parts.append(...)] *)
Fixpoint summary_lines (i : nat) (ms : list dict) : result (list string) :=
  match ms with
  | [] => Ok []
  | m :: rest => line ← summary_line i m; cons line <$> summary_lines (S i) rest
  end.

Definition summarize_top_nodes (matches : list dict) : result string :=
  match matches with
  | [] => Ok "No relevant results found."
  | _ => str_join newline <$> summary_lines 1 (firstn 3 matches)
  end.

(** ** The interactive session ([interactive_chat]) *)

(** [s * n] *)
Fixpoint str_repeat (s : string) (n : nat) : string :=
  match n with
  | O => EmptyString
  | S k => s +:+ str_repeat s k
  end.

Definition rule : string := str_repeat "=" 60.

Fixpoint print_all (lines : list string) (st : state) : state :=
  match lines with
  | [] => st
  | line :: rest => print_all rest (print line st)
  end.

(** What is printed before the loop. *)
Definition banner : list string :=
  [ newline +:+ rule;
    "🌏 HYBRID VIETNAM TRAVEL ASSISTANT 🌏";
    rule;
    newline +:+ "Combining Vector Search (Pinecone) + Knowledge Graph (Neo4j)";
    "Powered by OpenAI GPT-4o-mini" +:+ newline;
    "Examples:";
    "  - 'Create a romantic 4-day itinerary for Vietnam'";
    "  - 'Best adventure activities in Sapa and Ha Long Bay'";
    "  - 'Family-friendly attractions in Ho Chi Minh City'" +:+ newline;
    "Type 'exit' or 'quit' to end the session." +:+ newline;
    rule +:+ newline ].

(** [not query or query.lower() in ("exit", "quit")] *)
Definition ends_session (query : string) : bool :=
  String.eqb query "" || String.eqb (str_lower query) "exit" || String.eqb (str_lower query) "quit".

(** The body of the loop for a query that does not end the session.  None of
    it is inside a [try]: an exception leaves the loop. *)
Definition answer_query (query : string) (st : state) : result unit * state :=
  let st := print (newline +:+ "⏳ Processing your query...") st in
  let st := print "  [1/4] Searching vector database..." st in
  let '(matches, st) := pinecone_query query TOP_K st in
  let st := print "  [2/4] Extracting node IDs..." st in
  match map_result (fun m => dict_item m "id") matches with
  | Raise e => (Raise e, st)
  | Ok match_ids =>
      let st := print "  [3/4] Fetching knowledge graph relationships..." st in
      match fetch_graph_context match_ids st with
      | (Raise e, st) => (Raise e, st)
      | (Ok (graph_facts, city_connections), st) =>
          let st := print ("  [4/4] Generating AI response..." +:+ newline) st in
          match build_prompt query matches graph_facts city_connections with
          | Raise e => (Raise e, st)
          | Ok prompt =>
              let '(answer, st) := call_chat prompt st in
              (Ok tt,
               print_all
                 [ newline +:+ rule;
                   "🤖 ASSISTANT RESPONSE";
                   rule +:+ newline;
                   py_str answer;
                   newline +:+ rule;
                   newline +:+ "📊 Context Used:";
                   "  • Vector matches: " +:+ pretty (length matches);
                   "  • Graph relationships: " +:+ pretty (length graph_facts);
                   "  • City connections: " +:+ pretty (length city_connections);
                   "  • Cached embeddings: " +:+ pretty (size (EMBEDDING_CACHE st));
                   newline +:+ rule +:+ newline ] st)
          end
      end
  end.

(** How a session ends: by a line that ends it, by [input] finding the end
    of the input ([EOFError]), or by an exception of the pipeline. *)
Inductive session_end :=
| Finished
| InputExhausted
| Crashed (e : exn).

(** [while True: ...] over the lines that [input] returns.  The prompt that
    [input] writes is recorded like a printed line. *)
Fixpoint chat_loop (inputs : list string) (st : state) : session_end * state :=
  let st := print "🔍 Enter your travel question: " st in
  match inputs with
  | [] => (InputExhausted, st)
  | line :: rest =>
      let query := str_strip line in
      if ends_session query then
        (Finished, print (newline +:+ "👋 Thank you for using the Hybrid Travel Assistant!") st)
      else
        match answer_query query st with
        | (Raise e, st) => (Crashed e, st)
        | (Ok _, st) => chat_loop rest st
        end
  end.

Definition interactive_chat (inputs : list string) (st : state) : session_end * state :=
  chat_loop inputs (print_all banner st).

End Pipeline.

Arguments EMBEDDING_CACHE {World} s.
Arguments world {World} s.
Arguments trace {World} s.
Arguments set_world {World} w st.
Arguments emit {World} e st.
Arguments print {World} line st.
Arguments cache_store {World} key v st.
Arguments embed_text {_} {World} embeddings_create md5_hexdigest PINECONE_VECTOR_DIM text st.
Arguments pinecone_query {_} {World} embeddings_create index_query md5_hexdigest PINECONE_VECTOR_DIM
  query_text top_k st.
Arguments expand_node {_} float_repr {World} run_neighbours nid acc.
Arguments fetch_city_connections {_} {World} run_cities city_ids st.
Arguments fetch_graph_context {_} float_repr {World} run_neighbours run_cities node_ids st.
Arguments call_chat {_} {World} chat_create prompt_messages st.
Arguments ask {_} float_repr format_fixed {World} embeddings_create index_query run_neighbours run_cities
  chat_create md5_hexdigest PINECONE_VECTOR_DIM query st.

Arguments print_all {World} lines st.
Arguments answer_query {_} float_repr format_fixed {World} embeddings_create index_query run_neighbours
  run_cities chat_create md5_hexdigest PINECONE_VECTOR_DIM query st.
Arguments chat_loop {_} float_repr format_fixed {World} embeddings_create index_query run_neighbours
  run_cities chat_create md5_hexdigest PINECONE_VECTOR_DIM inputs st.
Arguments interactive_chat {_} float_repr format_fixed {World} embeddings_create index_query
  run_neighbours run_cities chat_create md5_hexdigest PINECONE_VECTOR_DIM inputs st.

(** ** Vocabulary of the statements *)

(** [kw] occurs in [s] as a substring. *)
Definition occurs_in (kw s : string) : Prop := exists l r, s = l +:+ kw +:+ r.

Definition text_of (v : value) : string :=
  match v with
  | VStr s => s
  | _ => ""
  end.

(** The text is empty or begins with the first byte of a character: a cut
    before it falls between two characters. *)
Definition starts_character (s : string) : Prop :=
  match s with
  | EmptyString => True
  | String c _ => is_continuation c = false
  end.

(** The three fields of a fact that the theme filter reads. *)
Definition fact_tags (f : dict) : value := dict_get f "target_tags" (VList []).
Definition fact_desc (f : dict) : value := dict_get f "target_desc" (VStr "").
Definition fact_name (f : dict) : value := dict_get f "target_name" (VStr "").

(** The description and the name of the fact are strings (or absent). *)
Definition fact_typed (f : dict) : bool :=
  match fact_desc f, fact_name f with
  | VStr _, VStr _ => true
  | _, _ => false
  end.

(** The fixed enumeration of themes. *)
Definition themes : list string := ["romantic"; "adventure"; "cultural"; "family"].

Section Vocabulary.
Context {unicode : Unicode}.

Variable float_repr : float -> string.

(** Some keyword occurs in the lower-cased rendering of the tag list, in the
    lower-cased description or in the lower-cased name. *)
Definition keyword_occurs (keywords : list string) (f : dict) : Prop :=
  exists kw, In kw keywords /\
    (occurs_in kw (str_lower (py_str float_repr (fact_tags f)))
     \/ occurs_in kw (str_lower (text_of (fact_desc f)))
     \/ occurs_in kw (str_lower (text_of (fact_name f)))).

(** The same test, as the Python expression computes it. *)
Definition keyword_hit (keywords : list string) (f : dict) : bool :=
  existsb (fun kw => str_contains kw (str_lower (py_str float_repr (fact_tags f)))
                     || str_contains kw (str_lower (text_of (fact_desc f)))
                     || str_contains kw (str_lower (text_of (fact_name f)))) keywords.

End Vocabulary.

(** [kept] is [facts] without the facts that [P] does not hold of: the
    others stay, in the order and with the repeats of [facts]. *)
Inductive selection (P : dict -> Prop) : list dict -> list dict -> Prop :=
| selection_nil : selection P [] []
| selection_keep f facts kept :
    P f -> selection P facts kept -> selection P (f :: facts) (f :: kept)
| selection_drop f facts kept :
    ~ P f -> selection P facts kept -> selection P (f :: facts) kept.

(** The score of [a] is at least the score of [b]. *)
Definition score_ge (a b : dict) : bool :=
  match dict_get a "score" VNone, dict_get b "score" VNone with
  | VFloat x, VFloat y => PrimFloat.leb y x
  | _, _ => false
  end.

(** The scores do not increase along the list. *)
Fixpoint scores_non_increasing (ms : list dict) : bool :=
  match ms with
  | a :: (b :: _) as rest => score_ge a b && scores_non_increasing rest
  | _ => true
  end.

(** Modelled from the spec: the vector index is an external service and no
    code of it is in the sources.  Its contract (data model, VectorMatch:
    "ordered by descending score; at most top_k entries"): the response to a
    request for [top_k] neighbours holds at most [top_k] matches, closest
    first. *)
Definition index_contract {World : Type}
    (index_query : vector -> nat -> World -> result (list dict) * World) : Prop :=
  forall vec top_k w matches,
    fst (index_query vec top_k w) = Ok matches ->
    (length matches <= top_k)%nat /\ scores_non_increasing matches = true.

(** Modelled from the spec: the graph store is an external service and no
    code of it is in the sources.  Its contract (external interfaces, "limit
    10", "limit 5"): a query whose text ends in [LIMIT n] yields at most [n]
    records. *)
Definition store_honours_limit {World : Type}
    (run_cities : string -> list value -> World -> cursor city_row * World) : Prop :=
  forall q city_ids w n,
    cypher_limit q = Some n ->
    (length (fetched (fst (run_cities q city_ids w))) <= n)%nat.

Definition is_city_label (x : value) : bool :=
  match x with VStr t => String.eqb "City" t | _ => false end.

(** The target of the fact carries the label "City". *)
Definition has_city_label (f : dict) : bool :=
  match dict_get f "labels" (VList []) with
  | VList l => existsb is_city_label l
  | _ => false
  end.

(** The source ids of the facts whose target is labelled "City", in order. *)
Definition city_sources (facts : list dict) : list value :=
  map (fun f => dict_get f "source" VNone) (List.filter has_city_label facts).

(** The facts that the records of one cursor contribute: those appended
    before the loop over the records stops. *)
Definition node_facts (nid : value) (c : cursor neighbour_row) : list dict :=
  fst (append_facts nid (fetched c) []).

(** The exception that ends the turn of one id, if any: raised while a record
    is turned into a fact, or by the query or the iteration. *)
Definition node_error (nid : value) (c : cursor neighbour_row) : option exn :=
  match snd (append_facts nid (fetched c) []) with
  | Some e => Some e
  | None => failure c
  end.

Definition is_graph_query (e : event) : bool :=
  match e with GraphQuery _ _ => true | _ => false end.

(** A fact that [fetch_graph_context] can have built. *)
Definition built (f : dict) : Prop := exists nid r, fact_of nid r = Ok f.

Section GraphVocabulary.
Context {unicode : Unicode}.

Variable float_repr : float -> string.
Variable World : Type.
Variable run_neighbours : string -> value -> World -> cursor neighbour_row * World.

(** The cursors of the per-entity queries for [ids], in order, from [w]. *)
Fixpoint neighbour_cursors (ids : list value) (w : World) : list (value * cursor neighbour_row) :=
  match ids with
  | [] => []
  | nid :: rest =>
      let '(c, w') := run_neighbours q1 nid w in
      (nid, c) :: neighbour_cursors rest w'
  end.

(** The world after the per-entity queries for [ids]. *)
Fixpoint world_after (ids : list value) (w : World) : World :=
  match ids with
  | [] => w
  | nid :: rest => world_after rest (snd (run_neighbours q1 nid w))
  end.

(** What one turn of the loop over the ids sends and prints. *)
Definition node_events (nc : value * cursor neighbour_row) : list event :=
  GraphQuery q1 [("nid", fst nc)] ::
  match node_error (fst nc) (snd nc) with
  | Some e => [Printed ("Error fetching graph context for " +:+ py_str float_repr (fst nc)
                        +:+ ": " +:+ exn_str e)]
  | None => []
  end.

(** The facts and the state after the loop over [ids], started with the
    facts [acc] in state [st]. *)
Definition expanded (ids : list value) (acc : list dict) (st : state World) : list dict * state World :=
  ((acc ++ flat_map (fun nc => node_facts (fst nc) (snd nc)) (neighbour_cursors ids (world st)))%list,
   {| EMBEDDING_CACHE := EMBEDDING_CACHE st;
      world := world_after ids (world st);
      trace := (trace st ++ flat_map node_events (neighbour_cursors ids (world st)))%list |}).

End GraphVocabulary.

Arguments neighbour_cursors {World} run_neighbours ids w.
Arguments world_after {World} run_neighbours ids w.
Arguments expanded {_} float_repr {World} run_neighbours ids acc st.

(** What the prompt assembler can render without raising. *)

Definition is_vstr (v : value) : bool :=
  match v with VStr _ => true | _ => false end.

Definition has_key (k : string) (d : dict) : bool :=
  match assoc k d with Some _ => true | None => false end.

(** Tags that [', '.join(tags[:3])] accepts: a string, or a list whose first
    three items are strings. *)
Definition tags_joinable (tags : value) : bool :=
  match tags with
  | VStr _ => true
  | VList l => forallb is_vstr (firstn 3 l)
  | _ => false
  end.

(** Tags are absent, empty, or joinable. *)
Definition tags_ok (tags : value) : bool := negb (truthy tags) || tags_joinable tags.

Definition fact_renderable (f : dict) : bool :=
  forallb (fun k => has_key k f)
    ["source"; "rel"; "target_id"; "target_name"; "target_type"; "target_desc"]
  && match dict_get f "target_desc" VNone with
     | VStr _ | VList _ => true
     | _ => false
     end
  && tags_ok (dict_get f "target_tags" VNone).

Definition connection_renderable (c : dict) : bool :=
  has_key "from_city" c && has_key "to_city_name" c.

Section PromptVocabulary.

Variable format_fixed : nat -> value -> result string.

(** A match with an id, a score that [format] accepts, and metadata that is a
    dict (or absent) whose tags are fine. *)
Definition match_typed (m : dict) : bool :=
  has_key "id" m
  && is_ok (format_fixed 3 (dict_get m "score" (VInt 0)))
  && match dict_get m "metadata" (VDict []) with
     | VDict meta => tags_ok (dict_get meta "tags" VNone)
     | _ => false
     end.

End PromptVocabulary.

(** Further vocabulary. *)

(** The line of a match up to its tags. *)
Definition snippet_head {unicode : Unicode} (float_repr : float -> string) (mid : value) (meta : dict) (shown : string)
    : string :=
  "- [" +:+ py_str float_repr mid +:+ "] " +:+ py_str float_repr (dict_get meta "name" (VStr "N/A"))
  +:+ " (" +:+ py_str float_repr (dict_get meta "type" (VStr "N/A")) +:+ ") "
  +:+ "in " +:+ py_str float_repr (dict_get meta "city" (VStr "N/A")) +:+ " - Score: " +:+ shown.

(** A match that [summarize_top_nodes] can render: a score that [format]
    accepts and metadata that is a dict (or absent). *)
Definition match_summarizable (format_fixed : nat -> value -> result string) (m : dict) : bool :=
  is_ok (format_fixed 2%nat (dict_get m "score" (VInt 0)))
  && match dict_get m "metadata" (VDict []) with
     | VDict _ => true
     | _ => false
     end.

Definition is_index_query (e : event) : bool :=
  match e with IndexQuery _ _ => true | _ => false end.

Definition is_chat_request (e : event) : bool :=
  match e with ChatRequest _ _ _ _ => true | _ => false end.

(** A test on events that sees neither what is printed nor the requests for
    embeddings. *)
Definition ignores_embedding (p : event -> bool) : Prop :=
  (forall line, p (Printed line) = false)
  /\ (forall model input, p (EmbeddingRequest model input) = false).

(** A test on events that sees neither what is printed nor the graph
    queries. *)
Definition ignores_graph (p : event -> bool) : Prop :=
  (forall line, p (Printed line) = false)
  /\ (forall query params, p (GraphQuery query params) = false).

(** The keys of a fact and of a city connection, in the order of the dict. *)
Definition fact_keys : list string :=
  ["source"; "rel"; "target_id"; "target_name"; "target_type"; "target_desc"; "target_tags"; "labels"].

Definition connection_keys : list string := ["from_city"; "to_city"; "to_city_name"].

(** Modelled from the spec: the graph store is an external service and no
    code of it is in the sources.  Its contract for the first-hop query
    (data model, GraphFact: "capped at 10 per source entity"): a query whose
    text ends in [LIMIT n] yields at most [n] records. *)
Definition neighbours_honour_limit {World : Type}
    (run_neighbours : string -> value -> World -> cursor neighbour_row * World) : Prop :=
  forall q nid w n,
    cypher_limit q = Some n ->
    (length (fetched (fst (run_neighbours q nid w))) <= n)%nat.

(** The prompt of a query for which nothing was retrieved. *)
Definition bare_prompt (query : string) : list dict :=
  [ [("role", VStr "system"); ("content", VStr system_prompt)];
    [("role", VStr "user"); ("content", VStr (user_content query [] [] ""))] ].

(** ** Scenarios *)

(** The Kelvin sign U+212A and the ideographic space U+3000, in UTF-8. *)
Definition kelvin_sign : string :=
  String (ascii_of_nat 226) (String (ascii_of_nat 132) (String (ascii_of_nat 170) EmptyString)).

Definition ideographic_space : string :=
  String (ascii_of_nat 227) (String (ascii_of_nat 128) (String (ascii_of_nat 128) EmptyString)).

(** A stand-in for the Unicode tables of the interpreter in the scenarios.
    Of the characters outside ASCII it knows two: the Kelvin sign, whose
    lower case is the letter k, and the ideographic space, which is white
    space.  Every other character outside ASCII is taken to be printable,
    without case, and no white space. *)
Definition sample_lower_char (ch : string) : string :=
  if String.eqb ch kelvin_sign then "k" else ascii_lower ch.

Definition sample_is_space (ch : string) : bool :=
  match ch with
  | String c EmptyString => is_space c
  | _ => String.eqb ch ideographic_space
  end.

Fixpoint skip_spaces (chars : list string) : list string :=
  match chars with
  | ch :: rest => if sample_is_space ch then skip_spaces rest else chars
  | [] => []
  end.

Definition sample_unicode : Unicode :=
  {| unicode_lower := fun s => str_join "" (map sample_lower_char (str_chars s));
     unicode_strip := fun s => str_join "" (rev (skip_spaces (rev (skip_spaces (str_chars s)))));
     unicode_repr := ascii_repr |}.

Section Scenarios.

#[local] Existing Instance sample_unicode.

(** Stand-ins for the interpreter's rendering of floats in the scenarios. *)
Definition sample_float_repr (f : float) : string :=
  if PrimFloat.eqb f 0.5%float then "0.5"
  else if PrimFloat.eqb f 0.25%float then "0.25"
  else "0.0".

Definition sample_format_fixed (digits : nat) (v : value) : result string :=
  match v with
  | VFloat f =>
      Ok (if PrimFloat.eqb f 0.5%float then "0.500"
          else if PrimFloat.eqb f 0.25%float then "0.250"
          else "0.000")
  | VInt z => Ok (pretty z +:+ ".000")
  | _ => Raise (TypeError ("unsupported format string passed to " +:+ type_name v +:+ ".__format__"))
  end.

(** A stand-in for the digest: the scenarios use one text at a time. *)
Definition sample_digest (text : string) : string := "md5:" +:+ text.

(** The world of the scenarios counts the calls made to the services. *)
Definition start : state nat :=
  {| EMBEDDING_CACHE := ∅; world := 0%nat; trace := [] |}.

(** An embedding service that answers every request. *)
Definition steady_embeddings (model : string) (input : list string) (calls : nat)
    : result (list vector) * nat :=
  (Ok [[0.5%float; 0.25%float]], S calls).

(** An embedding service that fails on the first request and answers later. *)
Definition flaky_embeddings (model : string) (input : list string) (calls : nat)
    : result (list vector) * nat :=
  match calls with
  | O => (Raise (ServiceError "Connection error."), S calls)
  | _ => (Ok [[0.5%float; 0.25%float]], S calls)
  end.

(** An embedding service that is down. *)
Definition down_embeddings (model : string) (input : list string) (calls : nat)
    : result (list vector) * nat :=
  (Raise (ServiceError "Connection error."), S calls).

Definition match_hue : dict :=
  [ ("id", VStr "city_hue"); ("score", VFloat 0.5%float);
    ("metadata", VDict [("name", VStr "Hue"); ("type", VStr "City"); ("city", VStr "Hue");
                        ("tags", VList [VStr "heritage"; VStr "culture"; VStr "food"; VStr "river"])]) ].

Definition match_hoi_an : dict :=
  [ ("id", VStr "city_hoi_an"); ("score", VFloat 0.25%float);
    ("metadata", VDict [("name", VStr "Hoi An"); ("type", VStr "City")]) ].

(** A vector index that honours [top_k] and ranks by score. *)
Definition ranked_index (vec : vector) (top_k : nat) (calls : nat) : result (list dict) * nat :=
  (Ok (firstn top_k [match_hue; match_hoi_an]), S calls).

(** A match for the city [name], without tags. *)
Definition city_match (name : string) : dict :=
  [ ("id", VStr ("city_" +:+ name)); ("score", VFloat 0.25%float);
    ("metadata", VDict [("name", VStr name); ("type", VStr "City"); ("city", VStr name)]) ].

(** Twelve matches, each of another city. *)
Definition twelve_matches : list dict :=
  map city_match ["hue"; "hanoi"; "sapa"; "dalat"; "hoian"; "danang"; "halong"; "cantho";
                  "vinh"; "pleiku"; "kontum"; "hagiang"].

Definition beach_fact : dict :=
  [ ("source", VStr "city_da_nang"); ("rel", VStr "Located_In"); ("target_id", VStr "attraction_7");
    ("target_name", VStr "My Khe"); ("target_type", VStr "Attraction");
    ("target_desc", VStr "A long sandy BEACH close to the centre");
    ("target_tags", VList [VStr "swimming"]); ("labels", VList [VStr "Entity"; VStr "Attraction"]) ].

Definition plain_fact : dict :=
  [ ("source", VStr "city_da_nang"); ("rel", VStr "Located_In"); ("target_id", VStr "hotel_3");
    ("target_name", VStr "Riverside Inn"); ("target_type", VStr "Hotel");
    ("target_desc", VStr "Quiet rooms"); ("target_tags", VList [VStr "budget"]);
    ("labels", VList [VStr "Entity"; VStr "Hotel"]) ].

(** The name of this fact begins with the Kelvin sign, not with the letter K:
    lower-cased, it reads "kids club". *)
Definition kelvin_fact : dict :=
  [ ("source", VStr "city_da_nang"); ("rel", VStr "Located_In"); ("target_id", VStr "attraction_9");
    ("target_name", VStr (kelvin_sign +:+ "IDS CLUB")); ("target_type", VStr "Attraction");
    ("target_desc", VStr "Indoor play"); ("target_tags", VList [VStr "indoor"]);
    ("labels", VList [VStr "Entity"; VStr "Attraction"]) ].

(** No keyword is a tag of this fact, but "spa" occurs inside "spacious". *)
Definition spacious_fact : dict :=
  [ ("source", VStr "city_hue"); ("rel", VStr "Located_In"); ("target_id", VStr "hotel_9");
    ("target_name", VStr "Garden Lodge"); ("target_type", VStr "Hotel");
    ("target_desc", VStr "Rooms by the river"); ("target_tags", VList [VStr "spacious"]);
    ("labels", VList [VStr "Entity"; VStr "Hotel"]) ].

Definition eleven_facts : list dict := repeat plain_fact 11.

(** A neighbour without a name: the store returns [None] for [m.name]. *)
Definition row_nameless : neighbour_row :=
  {| row_rel := "Located_In"; row_labels := ["Entity"; "Attraction"]; row_id := VStr "attraction_4";
     row_name := VNone; row_type := VStr "Attraction";
     row_description := VStr "A quiet beach"; row_tags := VNone |}.

Definition nameless_fact : dict :=
  match fact_of (VStr "city_da_nang") row_nameless with
  | Ok f => f
  | Raise _ => []
  end.

Definition row_old_quarter : neighbour_row :=
  {| row_rel := "Located_In"; row_labels := ["Entity"; "City"]; row_id := VStr "city_hanoi";
     row_name := VStr "Hanoi"; row_type := VStr "City";
     row_description := VStr "The capital"; row_tags := VList [VStr "culture"] |}.

(** A neighbour whose description is a number. *)
Definition row_numbered : neighbour_row :=
  {| row_rel := "Located_In"; row_labels := ["Entity"; "Hotel"]; row_id := VStr "hotel_12";
     row_name := VStr "Lake View"; row_type := VStr "Hotel";
     row_description := VInt 5; row_tags := VNone |}.

Definition row_pagoda : neighbour_row :=
  {| row_rel := "Near"; row_labels := ["Entity"; "Attraction"]; row_id := VStr "attraction_3";
     row_name := VStr "Thien Mu"; row_type := VStr "Attraction";
     row_description := VStr "A pagoda on the river"; row_tags := VList [VStr "temple"] |}.

(** A graph store in which the neighbours of "attraction_1" are a city and a
    node with a numeric description, the result for "attraction_2" breaks
    after its first record, and every other query is refused. *)
Definition sample_neighbours (query : string) (nid : value) (calls : nat)
    : cursor neighbour_row * nat :=
  match nid with
  | VStr "attraction_1" => ({| fetched := [row_old_quarter; row_numbered]; failure := None |}, S calls)
  | VStr "attraction_2" =>
      ({| fetched := [row_pagoda]; failure := Some (ServiceError "Connection lost") |}, S calls)
  | _ => ({| fetched := []; failure := Some (ServiceError "Unable to retrieve routing information") |},
          S calls)
  end.

Definition all_connections : list city_row :=
  map (fun name => {| from_city := VStr "attraction_1"; to_city := VStr name; to_city_name := VStr name |})
      ["Hue"; "Da Nang"; "Hoi An"; "Sapa"; "Ha Long"; "Da Lat"; "Can Tho"].

(** A graph store that honours the [LIMIT] clause of the query it is sent. *)
Definition sample_cities (query : string) (city_ids : list value) (calls : nat)
    : cursor city_row * nat :=
  ({| fetched := firstn (default 0%nat (cypher_limit query)) all_connections; failure := None |},
   S calls).

(** A completion service that is down. *)
Definition down_chat (model : string) (messages : list dict) (max_tokens : Z) (temperature : float)
    (calls : nat) : result (list value) * nat :=
  (Raise (ServiceError "Connection error."), S calls).

Definition sample_query : string := "  A romantic week in Hue  ".

(** The run of the endpoint on [sample_query], stage by stage. *)
Definition sample_retrieved : list dict * state nat :=
  pinecone_query steady_embeddings ranked_index sample_digest 2 (str_strip sample_query) TOP_K start.

Definition sample_ids : list value := [VStr "city_hue"; VStr "city_hoi_an"].

Definition sample_expanded : result (list dict * list dict) * state nat :=
  fetch_graph_context sample_float_repr sample_neighbours sample_cities sample_ids (snd sample_retrieved).

Definition sample_prompt : list dict :=
  match build_prompt sample_float_repr sample_format_fixed (str_strip sample_query)
          (fst sample_retrieved) [] [] with
  | Ok prompt => prompt
  | Raise _ => []
  end.

(** Further scenarios. *)

(** A digest under which every text collides. *)
Definition colliding_digest (text : string) : string := "d41d8cd98f00b204e9800998ecf8427e".

(** An embedding service that answers without any embedding. *)
Definition empty_embeddings (model : string) (input : list string) (calls : nat)
    : result (list vector) * nat :=
  (Ok [], S calls).

(** A vector index that is down. *)
Definition down_index (vec : vector) (top_k : nat) (calls : nat) : result (list dict) * nat :=
  (Raise (ServiceError "Connection error."), S calls).

(** A match without an id. *)
Definition match_anonymous : dict :=
  [ ("score", VFloat 0.25%float); ("metadata", VDict [("name", VStr "Hoi An")]) ].

Definition anonymous_index (vec : vector) (top_k : nat) (calls : nat) : result (list dict) * nat :=
  (Ok [match_hue; match_anonymous], S calls).

(** A match whose metadata is not a dict. *)
Definition match_broken : dict :=
  [ ("id", VStr "city_sapa"); ("score", VFloat 0.25%float); ("metadata", VStr "Sapa") ].

(** A graph store in which every node has one neighbour, without a name. *)
Definition nameless_neighbours (query : string) (nid : value) (calls : nat)
    : cursor neighbour_row * nat :=
  ({| fetched := [row_nameless]; failure := None |}, S calls).

(** A graph store with 12 neighbours per node that honours [LIMIT]. *)
Definition capped_neighbours (query : string) (nid : value) (calls : nat)
    : cursor neighbour_row * nat :=
  ({| fetched := firstn (default 0%nat (cypher_limit query)) (repeat row_pagoda 12);
      failure := None |}, S calls).

(** A completion service that answers. *)
Definition steady_chat (model : string) (messages : list dict) (max_tokens : Z)
    (temperature : float) (calls : nat) : result (list value) * nat :=
  (Ok [VStr "Day 1: the citadel of Hue."], S calls).


Definition two_connections : list dict :=
  map connection_of (firstn 2 all_connections).

End Scenarios.

(** * Properties *)

(** ** Strings *)

Lemma str_startswith_spec p s : str_startswith p s = true <-> exists r, s = p +:+ r.
Proof.
  revert s. induction p as [|a p IH]; intros s; simpl.
  - split; [intros _; now exists s | reflexivity].
  - destruct s as [|b s].
    + split; [discriminate | intros [r Hr]; discriminate].
    + rewrite andb_true_iff, IH. split.
      * intros [Hab [r ->]]. apply Ascii.eqb_eq in Hab as ->. now exists r.
      * intros [r Hr]. injection Hr as -> ->. split; [apply Ascii.eqb_refl | now exists r].
Qed.

Lemma str_contains_spec kw s : str_contains kw s = true <-> occurs_in kw s.
Proof.
  unfold occurs_in. induction s as [|c s IH].
  - simpl. rewrite orb_false_r, str_startswith_spec. split.
    + intros [r Hr]. now exists "", r.
    + intros [l [r Hr]]. destruct l; [now exists r | discriminate].
  - cbn [str_contains]. rewrite orb_true_iff, str_startswith_spec, IH. split.
    + intros [[r Hr] | [l [r Hr]]].
      * now exists "", r.
      * exists (String c l), r. simpl. now rewrite Hr.
    + intros [l [r Hr]]. destruct l as [|d l].
      * left. now exists r.
      * right. simpl in Hr. injection Hr as _ ->. now exists l, r.
Qed.

Section ThemeAndPrompt.
Context {unicode : Unicode}.

Variable float_repr : float -> string.
Variable format_fixed : nat -> value -> result string.

Lemma fact_matches_typed kws f :
  fact_typed f = true -> fact_matches float_repr kws f = Ok (keyword_hit float_repr kws f).
Proof.
  unfold fact_typed, fact_matches, keyword_hit, fact_desc, fact_name, fact_tags.
  destruct (dict_get f "target_desc" (VStr "")); try discriminate.
  destruct (dict_get f "target_name" (VStr "")); try discriminate.
  reflexivity.
Qed.

Lemma theme_loop_filter kws facts acc :
  forallb fact_typed facts = true ->
  theme_loop float_repr kws facts acc = Ok (acc ++ List.filter (keyword_hit float_repr kws) facts)%list.
Proof.
  revert acc. induction facts as [|f facts IH]; intros acc Hty; simpl.
  - now rewrite app_nil_r.
  - simpl in Hty. apply andb_true_iff in Hty as [Hf Hrest].
    rewrite (fact_matches_typed kws f Hf). simpl.
    destruct (keyword_hit float_repr kws f).
    + rewrite (IH _ Hrest). now rewrite <- app_assoc.
    + now apply IH.
Qed.

Lemma keyword_hit_spec kws f : keyword_hit float_repr kws f = true <-> keyword_occurs float_repr kws f.
Proof.
  unfold keyword_hit, keyword_occurs. rewrite existsb_exists.
  split; intros [kw [Hin H]]; exists kw; split; trivial.
  - rewrite !orb_true_iff, !str_contains_spec in H. tauto.
  - rewrite !orb_true_iff, !str_contains_spec. tauto.
Qed.


Lemma unmapped_theme theme : ~ In (str_lower theme) themes -> assoc (str_lower theme) theme_keywords = None.
Proof.
  intros Hnot. unfold theme_keywords. cbn [assoc].
  repeat match goal with
  | |- context [String.eqb ?a ?b] =>
      destruct (String.eqb_spec a b) as [Heq | _];
      [exfalso; apply Hnot; rewrite Heq; unfold themes; simpl; tauto |]
  end.
  reflexivity.
Qed.

Lemma mapped_keywords theme kws :
  assoc (str_lower theme) theme_keywords = Some kws -> kws <> [].
Proof.
  unfold theme_keywords. cbn [assoc].
  repeat match goal with
  | |- context [String.eqb ?a ?b] => destruct (String.eqb a b)
  end; intros H; inversion H; discriminate.
Qed.

Lemma filter_by_theme_mapped theme kws facts :
  assoc (str_lower theme) theme_keywords = Some kws ->
  forallb fact_typed facts = true ->
  filter_by_theme float_repr facts theme =
    Ok (let hits := List.filter (keyword_hit float_repr kws) facts in
        match hits with [] => firstn 10 facts | _ => hits end).
Proof.
  intros Hmap Hty. unfold filter_by_theme. rewrite Hmap. cbn [default from_option id].
  pose proof (mapped_keywords _ _ Hmap) as Hne.
  destruct kws as [|kw kws]; [congruence|].
  rewrite (theme_loop_filter _ _ _ Hty). reflexivity.
Qed.

(** C1, as amended: for every non-empty list of facts whose description and
    name are strings (or absent) and every theme, [filter_by_theme] returns a
    non-empty list.  When the lower-cased theme is not a key of the keyword
    table the list is [facts] itself; otherwise it is the list of the facts
    in which a keyword occurs, when there is one, and the first 10 facts when
    there is none. *)
Theorem filter_by_theme_result (facts : list dict) (theme : string) :
  facts <> [] ->
  forallb fact_typed facts = true ->
  exists out,
    filter_by_theme float_repr facts theme = Ok out /\ out <> [] /\
    match assoc (str_lower theme) theme_keywords with
    | None => out = facts
    | Some keywords =>
        let hits := List.filter (keyword_hit float_repr keywords) facts in
        (hits <> [] -> out = hits) /\ (hits = [] -> out = firstn 10 facts)
    end.
Proof.
  intros Hne Hty.
  destruct (assoc (str_lower theme) theme_keywords) as [kws|] eqn:Hmap.
  - rewrite (filter_by_theme_mapped _ _ _ Hmap Hty).
    destruct (List.filter (keyword_hit float_repr kws) facts) as [|h hits] eqn:Hf.
    + exists (firstn 10 facts). split; [reflexivity|]. split.
      * destruct facts; [congruence | discriminate].
      * cbn zeta. split; [congruence | reflexivity].
    + exists (h :: hits). split; [reflexivity|]. split; [discriminate|].
      cbn zeta. split; [reflexivity | discriminate].
  - exists facts. unfold filter_by_theme. rewrite Hmap. simpl. auto.
Qed.

(** C6, as amended: for every theme whose lower-cased form is not in the
    enumeration romantic, adventure, cultural, family, and every list of
    facts, [filter_by_theme] returns the facts unchanged. *)
Theorem filter_identity_off_enumeration (facts : list dict) (theme : string) :
  ~ In (str_lower theme) themes ->
  filter_by_theme float_repr facts theme = Ok facts.
Proof.
  intros Hnot. unfold filter_by_theme. now rewrite (unmapped_theme _ Hnot).
Qed.

Lemma filter_selection kws facts :
  selection (keyword_occurs float_repr kws) facts (List.filter (keyword_hit float_repr kws) facts).
Proof.
  induction facts as [|f facts IH]; cbn [List.filter]; [constructor|].
  destruct (keyword_hit float_repr kws f) eqn:Hhit.
  - apply selection_keep; [now apply keyword_hit_spec | exact IH].
  - apply selection_drop; [|exact IH].
    intros Hocc. apply keyword_hit_spec in Hocc. congruence.
Qed.

(** C10, as amended: for a mapped theme and facts whose description and name
    are strings (or absent), [filter_by_theme] returns a list.  When some
    keyword of the theme occurs, as a substring, in the lower-cased [str] of
    the whole tag list, in the lower-cased description or in the lower-cased
    name of at least one fact, the list is made of the facts with such an
    occurrence and of no other, in the order and with the repeats of the
    input.  When no fact has such an occurrence the list is the first 10
    facts, which are kept without a keyword. *)
Theorem filter_keeps_keyword_facts (theme : string) (keywords : list string) (facts : list dict) :
  assoc (str_lower theme) theme_keywords = Some keywords ->
  forallb fact_typed facts = true ->
  exists out,
    filter_by_theme float_repr facts theme = Ok out
    /\ ((exists f, In f facts /\ keyword_occurs float_repr keywords f) ->
          selection (keyword_occurs float_repr keywords) facts out
          /\ forall f, In f out <-> In f facts /\ keyword_occurs float_repr keywords f)
    /\ ((forall f, In f facts -> ~ keyword_occurs float_repr keywords f) ->
          out = firstn 10 facts).
Proof.
  intros Hmap Hty. rewrite (filter_by_theme_mapped _ _ _ Hmap Hty). cbn zeta.
  pose proof (filter_selection keywords facts) as Hsel.
  assert (Hin : forall f, In f (List.filter (keyword_hit float_repr keywords) facts)
                          <-> In f facts /\ keyword_occurs float_repr keywords f).
  { intros f. rewrite filter_In, keyword_hit_spec. reflexivity. }
  destruct (List.filter (keyword_hit float_repr keywords) facts) as [|h hits] eqn:Hf.
  - exists (firstn 10 facts). split; [reflexivity|]. split; [|reflexivity].
    intros [f Hf']. apply Hin in Hf'. destruct Hf'.
  - exists (h :: hits). split; [reflexivity|]. split; [now split|].
    intros Hnone. exfalso. destruct (proj1 (Hin h) (or_introl eq_refl)) as [Hh Hocc].
    exact (Hnone h Hh Hocc).
Qed.


Lemma theme_loop_app kws typed rest acc :
  forallb fact_typed typed = true ->
  theme_loop float_repr kws (typed ++ rest) acc
  = theme_loop float_repr kws rest (acc ++ List.filter (keyword_hit float_repr kws) typed).
Proof.
  revert acc. induction typed as [|f typed IH]; intros acc Hty; cbn [app List.filter].
  - now rewrite app_nil_r.
  - cbn [forallb] in Hty. apply andb_true_iff in Hty as [Hf Hrest].
    cbn [theme_loop]. rewrite (fact_matches_typed kws f Hf). cbn [mbind result_bind].
    rewrite (IH _ Hrest). destruct (keyword_hit float_repr kws f); [|reflexivity].
    now rewrite <- app_assoc.
Qed.

(** X1: under a mapped theme, [filter_by_theme] raises [AttributeError] at the
    first fact whose description or name is not a string (for instance the
    [None] that the graph store returns for a missing property): neither the
    kept facts nor the fallback are returned. *)
Theorem filter_raises_on_untyped_fact (theme : string) (keywords : list string)
    (before : list dict) (f : dict) (after : list dict) :
  assoc (str_lower theme) theme_keywords = Some keywords ->
  forallb fact_typed before = true ->
  fact_typed f = false ->
  exists msg, filter_by_theme float_repr (before ++ f :: after) theme = Raise (AttributeError msg).
Proof.
  intros Hmap Hbefore Hf. unfold filter_by_theme. rewrite Hmap. cbn [default from_option id].
  pose proof (mapped_keywords _ _ Hmap) as Hne.
  destruct keywords as [|kw kws]; [congruence|].
  rewrite (theme_loop_app _ _ _ _ Hbefore). cbn [theme_loop].
  unfold fact_typed, fact_desc, fact_name in Hf. unfold fact_matches.
  destruct (dict_get f "target_desc" (VStr "")) eqn:Hd;
    try (eexists; reflexivity);
    destruct (dict_get f "target_name" (VStr "")) eqn:Hn;
    try (eexists; reflexivity); discriminate.
Qed.

Lemma map_result_ok {A B} (f : A -> result B) xs :
  (forall x, In x xs -> exists y, f x = Ok y) ->
  exists ys, map_result f xs = Ok ys /\ length ys = length xs.
Proof.
  induction xs as [|x xs IH]; intros Hall.
  - now exists [].
  - destruct (Hall x (or_introl eq_refl)) as [y Hy].
    destruct IH as [ys [Hys Hlen]]; [intros z Hz; apply Hall; now right|].
    exists (y :: ys). cbn [map_result]. rewrite Hy, Hys. simpl. now rewrite Hlen.
Qed.

Lemma join_items_ok i l : forallb is_vstr l = true -> exists ss, join_items i l = Ok ss.
Proof.
  revert i. induction l as [|v l IH]; intros i Hall; [now exists []|].
  simpl in Hall. apply andb_true_iff in Hall as [Hv Hl].
  destruct v; try discriminate. destruct (IH (S i) Hl) as [ss Hss].
  exists (s :: ss). cbn [join_items]. now rewrite Hss.
Qed.

Lemma tags_suffix_ok tags : tags_joinable tags = true -> exists s, tags_suffix tags = Ok s.
Proof.
  unfold tags_suffix. destruct tags; try discriminate; cbn [tags_joinable value_take].
  - intros _. eexists. reflexivity.
  - intros Hall. destruct (join_items_ok 0 _ Hall) as [ss Hss].
    eexists. cbn. rewrite Hss. reflexivity.
Qed.

Lemma truthy_present d k dflt : truthy (dict_get d k VNone) = true -> dict_get d k dflt = dict_get d k VNone.
Proof. unfold dict_get. destruct (assoc k d); [reflexivity | discriminate]. Qed.

Lemma has_key_item k d : has_key k d = true -> exists v, dict_item d k = Ok v.
Proof. unfold has_key, dict_item. destruct (assoc k d) as [v|]; [now exists v | discriminate]. Qed.

Lemma tags_ok_truthy tags : tags_ok tags = true -> truthy tags = true -> tags_joinable tags = true.
Proof. unfold tags_ok. intros H Ht. rewrite Ht in H. exact H. Qed.

Lemma render_match_ok m : match_typed format_fixed m = true -> exists line, render_match float_repr format_fixed m = Ok line.
Proof.
  unfold match_typed, render_match. rewrite !andb_true_iff. intros [[Hid Hscore] Hmeta].
  destruct (has_key_item _ _ Hid) as [mid ->].
  destruct (dict_get m "metadata" (VDict [])) as [| | | | |?|meta]; try discriminate.
  destruct (format_fixed 3 (dict_get m "score" (VInt 0))) as [shown|]; [|discriminate].
  cbn. destruct (truthy (dict_get meta "tags" VNone)) eqn:Ht.
  - rewrite (truthy_present _ _ _ Ht).
    destruct (tags_suffix_ok _ (tags_ok_truthy _ Hmeta Ht)) as [suffix ->]. eexists. reflexivity.
  - eexists. reflexivity.
Qed.

Lemma render_fact_ok f : fact_renderable f = true -> exists line, render_fact float_repr f = Ok line.
Proof.
  unfold fact_renderable, render_fact. cbn [forallb]. rewrite !andb_true_iff.
  intros [[[H1 [H2 [H3 [H4 [H5 [H6 _]]]]]] Hdesc] Htags].
  destruct (has_key_item _ _ H1) as [v1 ->], (has_key_item _ _ H2) as [v2 ->],
    (has_key_item _ _ H3) as [v3 ->], (has_key_item _ _ H4) as [v4 ->],
    (has_key_item _ _ H5) as [v5 ->].
  assert (Hd : exists d, dict_item f "target_desc" = Ok (dict_get f "target_desc" VNone)
                         /\ value_take 200 (dict_get f "target_desc" VNone) = Ok d).
  { unfold dict_item, dict_get in *. unfold has_key in H6.
    destruct (assoc "target_desc" f) as [v|]; [|discriminate].
    destruct v; try discriminate; eexists; split; reflexivity. }
  destruct Hd as [d [-> Hd]]. cbn. rewrite Hd. cbn.
  destruct (truthy (dict_get f "target_tags" VNone)) eqn:Ht.
  - assert (Hitem : dict_item f "target_tags" = Ok (dict_get f "target_tags" VNone)).
    { unfold dict_item, dict_get in *. destruct (assoc "target_tags" f); [reflexivity | discriminate]. }
    rewrite Hitem. cbn.
    destruct (tags_suffix_ok _ (tags_ok_truthy _ Htags Ht)) as [suffix ->]. eexists. reflexivity.
  - eexists. reflexivity.
Qed.

Lemma render_connection_ok c :
  connection_renderable c = true -> exists line, render_connection float_repr c = Ok line.
Proof.
  unfold connection_renderable, render_connection. rewrite andb_true_iff. intros [H1 H2].
  destruct (has_key_item _ _ H1) as [v1 ->], (has_key_item _ _ H2) as [v2 ->].
  eexists. reflexivity.
Qed.

Lemma forallb_In {A} (p : A -> bool) xs x : forallb p xs = true -> In x xs -> p x = true.
Proof. rewrite forallb_forall. auto. Qed.

Lemma In_firstn {A} n (xs : list A) x : In x (firstn n xs) -> In x xs.
Proof.
  revert n. induction xs as [|y xs IH]; intros [|n]; simpl; try tauto.
  intros [->|H]; [now left | right; eauto].
Qed.

Lemma forallb_firstn {A} (p : A -> bool) n xs : forallb p xs = true -> forallb p (firstn n xs) = true.
Proof. rewrite !forallb_forall. intros H x Hx. apply H. eapply In_firstn, Hx. Qed.

Lemma forallb_filter {A} (p q : A -> bool) xs : forallb p xs = true -> forallb p (List.filter q xs) = true.
Proof. rewrite !forallb_forall. intros H x Hx. apply H. now apply filter_In in Hx. Qed.

Lemma detect_theme_mapped q :
  detect_theme q = "" \/ exists kws, assoc (str_lower (detect_theme q)) theme_keywords = Some kws.
Proof.
  unfold detect_theme.
  repeat match goal with |- context [if ?b then _ else _] => destruct b; [right; eexists; reflexivity|] end.
  now left.
Qed.

Lemma themed_facts_renderable q facts :
  forallb fact_typed facts = true ->
  forallb fact_renderable facts = true ->
  exists out,
    (if negb (String.eqb (detect_theme q) "") && match facts with [] => false | _ => true end
     then filter_by_theme float_repr facts (detect_theme q)
     else Ok facts) = Ok out
    /\ forallb fact_renderable out = true.
Proof.
  intros Hty Hren. destruct (detect_theme_mapped q) as [-> | [kws Hmap]].
  - now exists facts.
  - destruct (negb _ && _); [|now exists facts].
    rewrite (filter_by_theme_mapped _ _ _ Hmap Hty). eexists. split; [reflexivity|].
    cbn zeta. destruct (List.filter _ facts) eqn:Hf.
    + now apply forallb_firstn.
    + rewrite <- Hf. now apply forallb_filter.
Qed.

Lemma firstn_all_short {A} n (xs : list A) : (length xs <= n)%nat -> firstn n xs = xs.
Proof.
  revert n. induction xs as [|x xs IH]; intros [|n] H; simpl in *; try reflexivity; try lia.
  f_equal. apply IH. lia.
Qed.

(** C4: the semantic-match section of the user message is the heading
    followed by the lines of the first 8 matches, one line per match in the
    order of the matches, and by nothing of a later match.  The cap of 10
    lines applied when joining changes nothing: the section has at most 10
    lines, and exactly 8 when 12 matches are supplied. *)
Theorem semantic_section_lines (query : string) (matches facts connections : list dict) :
  forallb (match_typed format_fixed) matches = true ->
  forallb fact_typed facts = true ->
  forallb fact_renderable facts = true ->
  forallb connection_renderable connections = true ->
  exists lines graph_lines city_block,
    map_result (render_match float_repr format_fixed) (firstn 8 matches) = Ok lines
    /\ length lines = Nat.min 8 (length matches)
    /\ (length matches = 12%nat -> length lines = 8%nat)
    /\ (length lines <= 10)%nat
    /\ firstn 10 lines = lines
    /\ build_prompt float_repr format_fixed query matches facts connections
       = Ok [ [("role", VStr "system"); ("content", VStr system_prompt)];
              [("role", VStr "user");
               ("content",
                VStr ("User Query: " +:+ query +:+ newline +:+ newline
                      +:+ "=== TOP SEMANTIC MATCHES (from vector search) ===" +:+ newline
                      +:+ str_join newline (firstn 10 lines) +:+ newline +:+ newline
                      +:+ "=== KNOWLEDGE GRAPH RELATIONSHIPS ===" +:+ newline
                      +:+ str_join newline (firstn 20 graph_lines)
                      +:+ city_block +:+ newline +:+ newline
                      +:+ "Based on the above context, create a detailed response. "
                      +:+ "Use node IDs in [brackets] when referencing specific places."))] ].
Proof.
  intros Hm Hty Hren Hconn.
  destruct (map_result_ok (render_match float_repr format_fixed) (firstn 8 matches)) as [lines [Hlines Hlen]].
  { intros m Hin. apply render_match_ok. eapply forallb_In; [exact Hm | eapply In_firstn, Hin]. }
  rewrite length_firstn in Hlen.
  destruct (themed_facts_renderable query facts Hty Hren) as [themed [Hthemed Hthemed_ok]].
  destruct (map_result_ok (render_fact float_repr) (firstn 20 themed)) as [graph_lines [Hgraph _]].
  { intros f Hin. apply render_fact_ok. eapply forallb_In; [exact Hthemed_ok | eapply In_firstn, Hin]. }
  assert (Hcity : exists city_block, city_context_of float_repr connections = Ok city_block).
  { unfold city_context_of. destruct connections as [|c cs]; [now eexists|].
    destruct (map_result_ok (render_connection float_repr) (c :: cs)) as [ls [-> _]].
    - intros x Hin. apply render_connection_ok. eapply forallb_In; eauto.
    - eexists. reflexivity. }
  destruct Hcity as [city_block Hcity].
  exists lines, graph_lines, city_block.
  split; [exact Hlines|]. split; [exact Hlen|]. split; [lia|].
  split; [lia|]. split; [apply firstn_all_short; lia|].
  unfold build_prompt. rewrite Hthemed. cbn [mbind result_bind].
  unfold vec_context_of, graph_context_of.
  rewrite Hlines. cbn [mbind result_bind]. rewrite Hgraph. cbn [mbind result_bind].
  rewrite Hcity. reflexivity.
Qed.

End ThemeAndPrompt.

(** ** The embedding cache *)

Section EmbeddingFacts.
Context {unicode : Unicode}.
Variable World : Type.
Variable embeddings_create : string -> list string -> World -> result (list vector) * World.
Variable md5_hexdigest : string -> string.
Variable PINECONE_VECTOR_DIM : Z.

Local Abbreviation embed := (embed_text embeddings_create md5_hexdigest PINECONE_VECTOR_DIM).

Lemma embed_hit text (st : state World) v :
  EMBEDDING_CACHE st !! md5_hexdigest text = Some v -> embed text st = (v, st).
Proof. intros H. unfold embed_text. now rewrite H. Qed.

Lemma embed_miss_ok text (st : state World) v rest :
  EMBEDDING_CACHE st !! md5_hexdigest text = None ->
  fst (embeddings_create EMBED_MODEL [text] (world st)) = Ok (v :: rest) ->
  embed text st =
    (v, cache_store (md5_hexdigest text) v
          (set_world (snd (embeddings_create EMBED_MODEL [text] (world st)))
             (emit (EmbeddingRequest EMBED_MODEL [text]) st))).
Proof.
  intros Hmiss Hok. unfold embed_text. rewrite Hmiss.
  destruct (embeddings_create EMBED_MODEL [text] (world st)) as [resp w].
  simpl in Hok. subst resp. reflexivity.
Qed.

(** C3, as amended: when the text is already cached, or the first call's
    request to the embedding service returns an embedding, a second call of
    [embed_text] on the same text returns the same vector from the cache,
    sends no request and leaves the state as it is. *)
Theorem embed_twice_same text (st : state World) :
  (is_Some (EMBEDDING_CACHE st !! md5_hexdigest text)
   \/ exists v rest, fst (embeddings_create EMBED_MODEL [text] (world st)) = Ok (v :: rest)) ->
  let first := embed text st in
  let second := embed text (snd first) in
  fst second = fst first
  /\ snd second = snd first
  /\ List.filter is_embedding_request (trace (snd second))
     = List.filter is_embedding_request (trace (snd first))
  /\ EMBEDDING_CACHE (snd first) !! md5_hexdigest text = Some (fst first).
Proof.
  intros Hcase. cbn zeta.
  assert (Hstored : EMBEDDING_CACHE (snd (embed text st)) !! md5_hexdigest text
                    = Some (fst (embed text st))).
  { destruct (EMBEDDING_CACHE st !! md5_hexdigest text) as [c|] eqn:Hc.
    - now rewrite (embed_hit _ _ _ Hc).
    - destruct Hcase as [[c Hsome] | [v [rest Hok]]]; [discriminate|].
      rewrite (embed_miss_ok _ _ _ _ Hc Hok). simpl. apply lookup_insert_eq. }
  rewrite (embed_hit _ _ _ Hstored). simpl. auto.
Qed.

(** C7: when the request to the embedding service raises, [embed_text] leaves
    the cache as it is, prints the failure and returns a vector of zeros of
    the configured dimension. *)
Theorem embed_failure_fallback text (st : state World) e :
  EMBEDDING_CACHE st !! md5_hexdigest text = None ->
  fst (embeddings_create EMBED_MODEL [text] (world st)) = Raise e ->
  let out := embed text st in
  fst out = repeat 0%float (Z.to_nat PINECONE_VECTOR_DIM)
  /\ (0 <= PINECONE_VECTOR_DIM -> Z.of_nat (length (fst out)) = PINECONE_VECTOR_DIM)
  /\ Forall (fun x => x = 0%float) (fst out)
  /\ EMBEDDING_CACHE (snd out) = EMBEDDING_CACHE st
  /\ trace (snd out) = (trace st ++ [EmbeddingRequest EMBED_MODEL [text];
                                    Printed ("Error generating embedding: " +:+ exn_str e)])%list.
Proof.
  intros Hmiss Hfail. cbn zeta. unfold embed_text. rewrite Hmiss.
  destruct (embeddings_create EMBED_MODEL [text] (world st)) as [resp w].
  simpl in Hfail. subst resp. simpl. repeat split.
  - intros Hdim. rewrite repeat_length. lia.
  - apply List.Forall_forall. intros x Hx. now apply repeat_spec in Hx.
  - now rewrite <- app_assoc.
Qed.

End EmbeddingFacts.

(** ** The vector retriever *)

Section RetrieverFacts.
Context {unicode : Unicode}.
Variable World : Type.
Variable embeddings_create : string -> list string -> World -> result (list vector) * World.
Variable index_query : vector -> nat -> World -> result (list dict) * World.
Variable md5_hexdigest : string -> string.
Variable PINECONE_VECTOR_DIM : Z.

Local Abbreviation embed := (embed_text embeddings_create md5_hexdigest PINECONE_VECTOR_DIM).
Local Abbreviation retrieve := (pinecone_query embeddings_create index_query md5_hexdigest PINECONE_VECTOR_DIM).

(** C5: given a vector index that honours its contract, [pinecone_query]
    returns at most [top_k] matches with non-increasing scores: it returns
    the matches of the index as they are, and the empty list when the query
    raises. *)
Theorem retrieve_bounded_sorted query_text top_k (st : state World) :
  index_contract index_query ->
  let embedded := embed query_text st in
  let answer := fst (index_query (fst embedded) top_k (world (snd embedded))) in
  let matches := fst (retrieve query_text top_k st) in
  (length matches <= top_k)%nat
  /\ scores_non_increasing matches = true
  /\ (forall found, answer = Ok found -> matches = found)
  /\ (forall e, answer = Raise e -> matches = []).
Proof.
  intros Hcontract. cbn zeta. unfold pinecone_query.
  destruct (embed query_text st) as [vec st1]. cbn [fst snd].
  pose proof (Hcontract vec top_k (world st1)) as Hc.
  destruct (index_query vec top_k (world st1)) as [[found|e] w]; cbn [fst snd] in *.
  - destruct (Hc found eq_refl) as [Hlen Hsorted].
    split; [exact Hlen|]. split; [exact Hsorted|]. split; [congruence | discriminate].
  - split; [apply Nat.le_0_l|]. split; [reflexivity|]. split; [discriminate | reflexivity].
Qed.

End RetrieverFacts.

(** ** The completion client and the endpoint *)

Section CompletionFacts.
Context {unicode : Unicode}.
Variable float_repr : float -> string.
Variable format_fixed : nat -> value -> result string.
Variable World : Type.
Variable embeddings_create : string -> list string -> World -> result (list vector) * World.
Variable index_query : vector -> nat -> World -> result (list dict) * World.
Variable run_neighbours : string -> value -> World -> cursor neighbour_row * World.
Variable run_cities : string -> list value -> World -> cursor city_row * World.
Variable chat_create : string -> list dict -> Z -> float -> World -> result (list value) * World.
Variable md5_hexdigest : string -> string.
Variable PINECONE_VECTOR_DIM : Z.

Local Abbreviation complete := (call_chat chat_create).
Local Abbreviation retrieve := (pinecone_query embeddings_create index_query md5_hexdigest PINECONE_VECTOR_DIM).
Local Abbreviation expand := (fetch_graph_context float_repr run_neighbours run_cities).
Local Abbreviation endpoint := (ask float_repr format_fixed embeddings_create index_query run_neighbours
                          run_cities chat_create md5_hexdigest PINECONE_VECTOR_DIM).

(** C9: when the chat-completion request raises, [call_chat] returns a string
    that starts with "Error calling", and the endpoint that reached this call
    answers with that string in the field "answer" and status 200. *)
Theorem completion_failure_is_answer (messages : list dict) (st : state World) e :
  fst (chat_create CHAT_MODEL messages 800 0.3%float (world st)) = Raise e ->
  let answer := fst (complete messages st) in
  answer = VStr ("Error calling OpenAI: " +:+ exn_str e)
  /\ str_startswith "Error calling" (text_of answer) = true
  /\ forall query st0 matches match_ids graph_facts city_connections st1,
       str_strip query <> "" ->
       retrieve (str_strip query) TOP_K st0 = (matches, st1) ->
       map_result (fun m => dict_item m "id") matches = Ok match_ids ->
       expand match_ids st1 = (Ok (graph_facts, city_connections), st) ->
       build_prompt float_repr format_fixed (str_strip query) matches graph_facts city_connections
         = Ok messages ->
       fst (endpoint query st0) = ([("answer", answer)], 200).
Proof.
  intros Hraise. cbn zeta.
  assert (Hans : fst (complete messages st) = VStr ("Error calling OpenAI: " +:+ exn_str e)).
  { unfold call_chat.
    destruct (chat_create CHAT_MODEL messages 800 0.3%float (world st)) as [resp w].
    simpl in Hraise. subst resp. reflexivity. }
  split; [exact Hans|]. split; [now rewrite Hans|].
  intros query st0 matches match_ids graph_facts city_connections st1 Hq Hret Hids Hexp Hprompt.
  unfold ask. destruct (String.eqb_spec (str_strip query) "") as [Heq|_]; [contradiction|].
  rewrite Hret, Hids, Hexp, Hprompt.
  destruct (complete messages st) as [answer st2]. reflexivity.
Qed.

(** X3: a query that is empty once stripped is rejected with status 400
    before any stage runs: no request is sent, nothing is printed and the
    cache is as it was. *)
Theorem blank_query_rejected (query : string) (st : state World) :
  str_strip query = "" ->
  endpoint query st = (([("error", VStr "Empty query")], 400), st).
Proof. intros Hblank. unfold ask. now rewrite Hblank. Qed.

End CompletionFacts.

(** ** The graph expander *)

Lemma str_take_prefix n s : exists rest, s = str_take n s +:+ rest /\ starts_character rest.
Proof.
  revert n. induction s as [|c s IH]; intros n.
  - now exists "".
  - cbn [str_take]. destruct (is_continuation c) eqn:Hc.
    + destruct (IH n) as [rest [Hs Hrest]]. exists rest. split; [|exact Hrest].
      change (String c s = String c (str_take n s +:+ rest)). now rewrite <- Hs.
    + destruct n as [|k].
      * exists (String c s). split; [reflexivity | exact Hc].
      * destruct (IH k) as [rest [Hs Hrest]]. exists rest. split; [|exact Hrest].
        change (String c s = String c (str_take k s +:+ rest)). now rewrite <- Hs.
Qed.

Lemma str_take_len n s : str_len (str_take n s) = Nat.min n (str_len s).
Proof.
  revert n. induction s as [|c s IH]; intros n.
  - cbn. lia.
  - cbn [str_take str_len]. destruct (is_continuation c) eqn:Hc.
    + cbn [str_len]. rewrite Hc. apply IH.
    + destruct n as [|k]; [reflexivity|]. cbn [str_len]. rewrite Hc, IH. lia.
Qed.

Lemma value_take_cases n v cut :
  value_take n v = Ok cut ->
  (exists s, v = VStr s /\ cut = VStr (str_take n s))
  \/ (exists l, v = VList l /\ cut = VList (firstn n l)).
Proof.
  destruct v; try discriminate; intros Hcut; injection Hcut as <-; eauto.
Qed.

Lemma fact_of_desc n (description : value) cut :
  value_take n (py_or description (VStr "")) = Ok cut ->
  (truthy description = false -> cut = VStr "")
  /\ (forall s, description = VStr s ->
        exists kept rest, cut = VStr kept /\ s = kept +:+ rest /\ starts_character rest
                          /\ str_len kept = Nat.min n (str_len s))
  /\ (forall l, description = VList l -> l <> [] -> cut = VList (firstn n l))
  /\ (truthy description = false \/ (exists s, description = VStr s)
      \/ exists l, description = VList l).
Proof.
  unfold py_or. intros Hcut. repeat split.
  - intros Hfalsy. rewrite Hfalsy in Hcut. cbn in Hcut. now injection Hcut as <-.
  - intros s ->. destruct (truthy (VStr s)) eqn:Htruthy.
    + cbn in Hcut. injection Hcut as <-.
      destruct (str_take_prefix n s) as [rest [Hs Hrest]].
      exists (str_take n s), rest. repeat split; [exact Hs | exact Hrest | apply str_take_len].
    + cbn in Hcut. injection Hcut as <-.
      assert (s = "") as -> by (cbn in Htruthy; now destruct (String.eqb_spec s "")).
      exists "", "". repeat split. cbn. lia.
  - intros l -> Hl. destruct l as [|x l]; [contradiction|]. cbn in Hcut. now injection Hcut as <-.
  - destruct (truthy description) eqn:Htruthy; [right | now left].
    destruct (value_take_cases _ _ _ Hcut) as [[s [-> _]] | [l [-> _]]]; eauto.
Qed.

(** X2: the description of a fact built by [fetch_graph_context] is the
    description of the record cut to 400 characters.  A description that is
    missing or falsy gives the empty string; a string gives its first 400
    characters, whole when it has no more; a list gives its first 400 items.
    Nothing else gives a fact. *)
Theorem fact_description_bounded (nid : value) (r : neighbour_row) (f : dict) :
  fact_of nid r = Ok f ->
  let kept := dict_get f "target_desc" VNone in
  (truthy (row_description r) = false -> kept = VStr "")
  /\ (forall s, row_description r = VStr s ->
        exists cut rest, kept = VStr cut /\ s = cut +:+ rest /\ starts_character rest
                         /\ str_len cut = Nat.min 400 (str_len s))
  /\ (forall l, row_description r = VList l -> l <> [] -> kept = VList (firstn 400 l))
  /\ (truthy (row_description r) = false \/ (exists s, row_description r = VStr s)
      \/ exists l, row_description r = VList l).
Proof.
  unfold fact_of. generalize 400%nat. intros n.
  destruct (value_take n (py_or (row_description r) (VStr ""))) as [desc|e] eqn:Hcut;
    [|discriminate].
  intros Hf. injection Hf as <-. cbn zeta.
  replace (dict_get _ "target_desc" VNone) with desc by reflexivity.
  exact (fact_of_desc _ _ _ Hcut).
Qed.

Section GraphFacts.
Context {unicode : Unicode}.
Variable float_repr : float -> string.
Variable World : Type.
Variable run_neighbours : string -> value -> World -> cursor neighbour_row * World.
Variable run_cities : string -> list value -> World -> cursor city_row * World.

Local Abbreviation expand := (fetch_graph_context float_repr run_neighbours run_cities).
Local Abbreviation cursors_of := (neighbour_cursors run_neighbours).

Lemma append_facts_acc nid rows acc :
  append_facts nid rows acc
  = ((acc ++ fst (append_facts nid rows []))%list, snd (append_facts nid rows [])).
Proof.
  revert acc. induction rows as [|r rows IH]; intros acc; simpl.
  - now rewrite app_nil_r.
  - destruct (fact_of nid r) as [f|e]; simpl.
    + rewrite (IH (acc ++ [f])%list), (IH [f]). simpl. now rewrite <- app_assoc.
    + now rewrite app_nil_r.
Qed.

Lemma append_facts_prefix nid rows :
  exists k, (k <= length rows)%nat
    /\ map_result (fact_of nid) (firstn k rows) = Ok (fst (append_facts nid rows []))
    /\ (snd (append_facts nid rows []) = None -> k = length rows)
    /\ (forall e, snd (append_facts nid rows []) = Some e ->
          exists r, nth_error rows k = Some r /\ fact_of nid r = Raise e).
Proof.
  induction rows as [|r rows IH].
  - exists 0%nat. simpl. repeat split; [lia | discriminate].
  - simpl. destruct (fact_of nid r) as [f|e] eqn:Hf.
    + destruct IH as [k [Hk [Hmap [Hnone Hsome]]]].
      exists (S k). rewrite append_facts_acc. cbn [fst snd firstn map_result length nth_error app].
      rewrite Hf, Hmap. cbn. repeat split; [lia | auto | exact Hsome].
    + exists 0%nat. cbn. repeat split; [lia | discriminate |].
      intros e' He'. injection He' as <-. now exists r.
Qed.

Lemma expand_nodes ids acc (st : state World) :
  fold_left (fun a nid => expand_node float_repr run_neighbours nid a) ids (acc, st)
  = expanded float_repr run_neighbours ids acc st.
Proof.
  revert acc st. induction ids as [|nid ids IH]; intros acc st.
  - unfold expanded. simpl. rewrite !app_nil_r. now destruct st.
  - cbn [fold_left]. unfold expand_node at 2.
    unfold expanded. cbn [neighbour_cursors world_after].
    destruct (run_neighbours q1 nid (world st)) as [c w] eqn:Hrun. cbn [snd].
    rewrite append_facts_acc.
    cbn [flat_map fst snd]. unfold node_events at 1, node_error, node_facts at 1. cbn [fst snd].
    destruct (snd (append_facts nid (fetched c) [])) as [e|], (failure c) as [e'|];
      rewrite IH; unfold expanded; cbn; rewrite <- ?app_assoc; reflexivity.
Qed.


Lemma fact_of_shape nid r f :
  fact_of nid r = Ok f ->
  has_city_label f = existsb is_city_label (map VStr (row_labels r))
  /\ value_contains "City" (dict_get f "labels" (VList [])) = Ok (has_city_label f)
  /\ dict_item f "source" = Ok (dict_get f "source" VNone)
  /\ dict_get f "source" VNone = nid.
Proof.
  unfold fact_of. destruct (value_take 400 _) as [desc|e]; [|discriminate].
  intros H. injection H as <-. repeat split.
Qed.

Lemma node_facts_built nid c : Forall built (node_facts nid c).
Proof.
  unfold node_facts. induction (fetched c) as [|r rows IH]; simpl; [constructor|].
  destruct (fact_of nid r) as [f|e] eqn:Hf; [|constructor].
  rewrite append_facts_acc. simpl. constructor; [now exists nid, r | exact IH].
Qed.

Lemma city_ids_built facts : Forall built facts -> city_ids_of facts = Ok (city_sources facts).
Proof.
  unfold city_sources. induction 1 as [|f facts [nid [r Hf]] _ IH]; [reflexivity|].
  destruct (fact_of_shape _ _ _ Hf) as [_ [Hin [Hsrc _]]].
  cbn [city_ids_of List.filter]. rewrite Hin. cbn.
  destruct (has_city_label f); [|exact IH].
  rewrite Hsrc, IH. reflexivity.
Qed.

Lemma cursors_ids ids w : map fst (cursors_of ids w) = ids.
Proof.
  revert w. induction ids as [|nid ids IH]; intros w; simpl; [reflexivity|].
  destruct (run_neighbours q1 nid w) as [c w']. simpl. now rewrite IH.
Qed.

Lemma node_events_queries cs :
  List.filter is_graph_query (flat_map (node_events float_repr) cs)
  = map (fun nid => GraphQuery q1 [("nid", nid)]) (map fst cs).
Proof.
  induction cs as [|[nid c] cs IH]; [reflexivity|].
  cbn [flat_map map fst]. rewrite List.filter_app, IH. unfold node_events. cbn [fst snd].
  destruct (node_error nid c); reflexivity.
Qed.

Lemma expanded_facts_built ids w :
  Forall built (flat_map (fun nc => node_facts (fst nc) (snd nc)) (cursors_of ids w)).
Proof.
  induction (cursors_of ids w) as [|[nid c] cs IH]; simpl; [constructor|].
  apply Forall_app. split; [apply node_facts_built | exact IH].
Qed.

Lemma node_turn nid (c : cursor neighbour_row) :
  exists k, (k <= length (fetched c))%nat
    /\ map_result (fact_of nid) (firstn k (fetched c)) = Ok (node_facts nid c)
    /\ match nth_error (fetched c) k with
       | Some r => exists e, fact_of nid r = Raise e /\ node_error nid c = Some e
       | None => k = length (fetched c) /\ node_error nid c = failure c
       end.
Proof.
  destruct (append_facts_prefix nid (fetched c)) as [k [Hk [Hmap [Hnone Hsome]]]].
  exists k. split; [exact Hk|]. split; [exact Hmap|]. unfold node_error.
  destruct (snd (append_facts nid (fetched c) [])) as [e|].
  - destruct (Hsome e eq_refl) as [r [-> Hr]]. now exists e.
  - rewrite (Hnone eq_refl). now rewrite (proj2 (nth_error_None _ _) (Nat.le_refl _)).
Qed.

(** C2, as amended: [fetch_graph_context] never raises.  Its facts are, for
    each id in input order, the facts of the first [k] records of that id's
    query, where [k] is the number of records that were turned into facts
    before the turn of the id ended: either record number [k] is the first
    that cannot be turned into a fact, and its exception ends the turn, or
    [k] counts all the records fetched, and the turn ends as the query or the
    iteration did (no record at all when the query itself raised).  Every
    failure is printed with the id, the loop goes on, and a failed
    city-connectivity query gives no connection. *)
Theorem expand_partial_failure ids (st : state World) :
  let cursors := cursors_of ids (world st) in
  let facts := flat_map (fun nc => node_facts (fst nc) (snd nc)) cursors in
  exists conns st',
    expand ids st = (Ok (facts, conns), st')
    /\ (forall nid c, In (nid, c) cursors ->
          (exists k, (k <= length (fetched c))%nat
             /\ map_result (fact_of nid) (firstn k (fetched c)) = Ok (node_facts nid c)
             /\ match nth_error (fetched c) k with
                | Some r => exists e, fact_of nid r = Raise e /\ node_error nid c = Some e
                | None => k = length (fetched c) /\ node_error nid c = failure c
                end)
          /\ (forall e, node_error nid c = Some e ->
                In (Printed ("Error fetching graph context for " +:+ py_str float_repr nid
                             +:+ ": " +:+ exn_str e)) (trace st')))
    /\ (forall e, failure (fst (run_cities q2 (city_sources facts)
                                  (world_after run_neighbours ids (world st)))) = Some e ->
          conns = []).
Proof.
  cbn zeta. unfold fetch_graph_context. rewrite expand_nodes. unfold expanded. cbn [app].
  set (cursors := cursors_of ids (world st)).
  set (facts := flat_map (fun nc => node_facts (fst nc) (snd nc)) cursors).
  rewrite (city_ids_built facts (expanded_facts_built ids (world st))).
  match goal with |- context [fetch_city_connections run_cities ?ids ?s] =>
    set (st1 := s); destruct (fetch_city_connections run_cities ids st1) as [conns st2] eqn:Hcity
  end.
  eexists conns, _. split; [reflexivity|]. split.
  - intros nid c Hin. split; [apply node_turn|].
    intros e He. cbn [trace print emit]. apply in_or_app. left.
    assert (Hst2 : exists more, trace st2 = (trace st1 ++ more)%list).
    { unfold fetch_city_connections in Hcity. destruct (city_sources facts).
      - injection Hcity as _ <-. exists []. now rewrite app_nil_r.
      - destruct (run_cities q2 _ (world st1)) as [cr w]. destruct (failure cr);
          injection Hcity as _ <-; eexists; cbn; rewrite <- ?app_assoc; reflexivity. }
    destruct Hst2 as [more ->]. apply in_or_app. left.
    unfold st1. cbn [trace]. apply in_or_app. right.
    apply in_flat_map. exists (nid, c). split; [exact Hin|].
    unfold node_events. cbn [fst snd]. rewrite He. right. now left.
  - intros e He. unfold fetch_city_connections in Hcity. destruct (city_sources facts).
    + now injection Hcity as <- _.
    + unfold st1 in Hcity. cbn [world] in Hcity.
      destruct (run_cities q2 _ _) as [cr w]. cbn [fst] in He. rewrite He in Hcity.
      now injection Hcity as <- _.
Qed.

(** C8: the graph queries sent are one first-hop query per id, in order, then
    nothing more when no fact has a target labelled "City", and otherwise
    exactly one connectivity query, whose parameter is the list of the source
    ids of those facts.  Given a store that honours [LIMIT], at most 5
    connections are returned; without a connectivity query there is none. *)
Theorem city_connectivity_query ids (st : state World) :
  store_honours_limit run_cities ->
  exists facts conns st' sent,
    expand ids st = (Ok (facts, conns), st')
    /\ List.filter is_graph_query (trace st')
       = (List.filter is_graph_query (trace st)
          ++ map (fun nid => GraphQuery q1 [("nid", nid)]) ids ++ sent)%list
    /\ (length conns <= 5)%nat
    /\ (city_sources facts <> [] ->
          sent = [GraphQuery q2 [("city_ids", VList (city_sources facts))]])
    /\ (city_sources facts = [] -> sent = [] /\ conns = []).
Proof.
  intros Hlimit.
  unfold fetch_graph_context. rewrite expand_nodes. unfold expanded. cbn [app].
  set (facts := flat_map (fun nc => node_facts (fst nc) (snd nc)) (cursors_of ids (world st))).
  rewrite (city_ids_built facts (expanded_facts_built ids (world st))).
  unfold fetch_city_connections.
  destruct (city_sources facts) as [|cid cids] eqn:Hcids.
  - eexists facts, [], _, []. split; [reflexivity|].
    cbn [trace print emit]. rewrite !List.filter_app, node_events_queries, cursors_ids. cbn.
    rewrite !app_nil_r. split; [reflexivity|]. split; [lia|].
    rewrite Hcids. split; [congruence | split; reflexivity].
  - match goal with |- context [run_cities q2 ?a ?w] =>
      pose proof (Hlimit q2 a w 5%nat eq_refl) as Hlim;
      destruct (run_cities q2 a w) as [cr w']
    end.
    cbn [fst] in Hlim.
    destruct (failure cr) as [e|].
    + eexists facts, [], _, [_]. split; [reflexivity|].
      cbn [trace print emit set_world]. rewrite !List.filter_app, node_events_queries, cursors_ids. cbn.
      rewrite <- !app_assoc. split; [reflexivity|]. split; [lia|].
      rewrite Hcids. split; [reflexivity | discriminate].
    + eexists facts, _, _, [_]. split; [reflexivity|].
      cbn [trace print emit set_world]. rewrite !List.filter_app, node_events_queries, cursors_ids. cbn.
      rewrite <- !app_assoc, List.length_map. split; [reflexivity|]. split; [exact Hlim|].
      rewrite Hcids. split; [reflexivity | discriminate].
Qed.

End GraphFacts.

(** ** The scenarios, checked *)

Section ScenariosChecked.

#[local] Existing Instance sample_unicode.

(** With a theme that has no keywords no fact matches, and all 11 facts come
    back, not the first 10. *)
Lemma filter_unmapped_theme_keeps_all :
  List.filter (keyword_hit sample_float_repr (default [] (assoc (str_lower "luxury") theme_keywords)))
    eleven_facts = []
  /\ filter_by_theme sample_float_repr eleven_facts "luxury" = Ok eleven_facts
  /\ filter_by_theme sample_float_repr eleven_facts "luxury" <> Ok (firstn 10 eleven_facts).
Proof.
  split; [reflexivity|]. split; [reflexivity|].
  intros H. apply (f_equal (fun r => match r with Ok l => length l | Raise _ => 0%nat end)) in H.
  vm_compute in H. discriminate.
Qed.

Lemma filter_by_theme_result_witness :
  exists out, filter_by_theme sample_float_repr [plain_fact; kelvin_fact] "Family" = Ok out
              /\ out = [kelvin_fact].
Proof.
  destruct (filter_by_theme_result sample_float_repr [plain_fact; kelvin_fact] "Family")
    as [out [Hout [_ Hshape]]]; [discriminate | reflexivity |].
  exists out. split; [exact Hout|].
  apply (proj1 Hshape). discriminate.
Defined.

(** "ROMANTIC" is not one of the four theme names, yet it filters. *)
Lemma filter_upper_case_theme_filters :
  ~ In "ROMANTIC" themes
  /\ filter_by_theme sample_float_repr [plain_fact; beach_fact] "ROMANTIC" = Ok [beach_fact]
  /\ [beach_fact] <> [plain_fact; beach_fact].
Proof.
  split; [|split; [reflexivity | discriminate]].
  unfold themes. simpl. intros [H|[H|[H|[H|[]]]]]; discriminate.
Qed.

Lemma filter_identity_witness :
  filter_by_theme sample_float_repr [plain_fact; beach_fact] "Luxury" = Ok [plain_fact; beach_fact].
Proof.
  apply filter_identity_off_enumeration.
  unfold themes. simpl. intros [H|[H|[H|[H|[]]]]]; discriminate.
Defined.

(** Under "family" no keyword occurs in the only fact, and the fact is kept
    all the same. *)
Lemma filter_fallback_keeps_unmatched :
  assoc (str_lower "family") theme_keywords = Some ["family"; "kids"; "zoo"; "park"; "entertainment"]
  /\ ~ keyword_occurs sample_float_repr ["family"; "kids"; "zoo"; "park"; "entertainment"] plain_fact
  /\ filter_by_theme sample_float_repr [plain_fact] "family" = Ok [plain_fact].
Proof.
  split; [reflexivity|]. split; [|reflexivity].
  intros Hocc. apply (keyword_hit_spec sample_float_repr) in Hocc. vm_compute in Hocc. discriminate.
Qed.

Lemma filter_keeps_keyword_facts_witness :
  keyword_occurs sample_float_repr
    ["romantic"; "couple"; "sunset"; "beach"; "spa"; "dinner"; "cruise"] spacious_fact
  /\ ~ In (VStr "spa") [VStr "spacious"]
  /\ exists out,
       filter_by_theme sample_float_repr [plain_fact; spacious_fact] "romantic" = Ok out
       /\ selection (keyword_occurs sample_float_repr
                       ["romantic"; "couple"; "sunset"; "beach"; "spa"; "dinner"; "cruise"])
            [plain_fact; spacious_fact] out
       /\ out = [spacious_fact].
Proof.
  assert (Hspa : keyword_occurs sample_float_repr
                   ["romantic"; "couple"; "sunset"; "beach"; "spa"; "dinner"; "cruise"] spacious_fact).
  { exists "spa". split; [cbn; tauto|]. left. exists "['", "cious']". reflexivity. }
  split; [exact Hspa|]. split; [simpl; intros [Heq|[]]; discriminate|].
  destruct (filter_keeps_keyword_facts sample_float_repr "romantic"
              ["romantic"; "couple"; "sunset"; "beach"; "spa"; "dinner"; "cruise"]
              [plain_fact; spacious_fact] eq_refl eq_refl) as [out [Hrun [Hsome _]]].
  destruct Hsome as [Hsel _]; [exists spacious_fact; split; [cbn; tauto | exact Hspa]|].
  exists out. split; [exact Hrun|]. split; [exact Hsel|].
  vm_compute in Hrun. now injection Hrun as <-.
Defined.

(** After a failed first call nothing is cached: the second call sends a
    request again and returns another vector. *)
Lemma embed_twice_after_failure :
  let first := embed_text flaky_embeddings sample_digest 2 "Hue at night" start in
  let second := embed_text flaky_embeddings sample_digest 2 "Hue at night" (snd first) in
  fst first = [0%float; 0%float]
  /\ fst second = [0.5%float; 0.25%float]
  /\ fst second <> fst first
  /\ EMBEDDING_CACHE (snd first) !! sample_digest "Hue at night" = None
  /\ trace (snd second)
     = (trace (snd first) ++ [EmbeddingRequest EMBED_MODEL ["Hue at night"]])%list.
Proof.
  cbn zeta. split; [reflexivity|]. split; [reflexivity|]. split; [|split; reflexivity].
  intros H.
  apply (f_equal (fun v => match v with x :: _ => PrimFloat.eqb x 0%float | [] => false end)) in H.
  vm_compute in H. discriminate.
Qed.

Lemma embed_twice_same_witness :
  let first := embed_text steady_embeddings sample_digest 2 "Hue at night" start in
  fst (embed_text steady_embeddings sample_digest 2 "Hue at night" (snd first)) = fst first
  /\ trace (snd (embed_text steady_embeddings sample_digest 2 "Hue at night" (snd first)))
     = [EmbeddingRequest EMBED_MODEL ["Hue at night"]].
Proof.
  cbn zeta.
  destruct (embed_twice_same nat steady_embeddings sample_digest 2 "Hue at night" start)
    as [Hsame [Hstate _]].
  - right. exists [0.5%float; 0.25%float], []. reflexivity.
  - split; [exact Hsame|]. rewrite Hstate. reflexivity.
Defined.

Lemma embed_failure_fallback_witness :
  fst (embed_text down_embeddings sample_digest 2 "Hue at night" start) = [0%float; 0%float]
  /\ EMBEDDING_CACHE (snd (embed_text down_embeddings sample_digest 2 "Hue at night" start)) = ∅.
Proof.
  destruct (embed_failure_fallback nat down_embeddings sample_digest 2 "Hue at night" start
              (ServiceError "Connection error.") eq_refl eq_refl) as [Hzero [_ [_ [Hcache _]]]].
  split; [exact Hzero | exact Hcache].
Defined.

(** [ranked_index] honours the contract of the vector index. *)
Lemma ranked_index_contract : index_contract ranked_index.
Proof.
  intros vec top_k w matches. unfold ranked_index. cbn [fst]. intros H. injection H as <-. split.
  - rewrite length_firstn. lia.
  - destruct top_k as [|[|[|k]]]; reflexivity.
Qed.

Lemma retrieve_bounded_sorted_witness :
  let matches := fst (pinecone_query steady_embeddings ranked_index sample_digest 2
                        "A romantic week in Hue" 1 start) in
  (length matches <= 1)%nat /\ scores_non_increasing matches = true /\ matches = [match_hue].
Proof.
  cbn zeta.
  destruct (retrieve_bounded_sorted nat steady_embeddings ranked_index sample_digest 2
              "A romantic week in Hue" 1%nat start ranked_index_contract)
    as [Hlen [Hsorted [Hfound _]]].
  split; [exact Hlen|]. split; [exact Hsorted|]. apply Hfound. reflexivity.
Defined.

(** The turns of "attraction_1" and "attraction_2" both fail, the first on its
    second record and the second when its result breaks; the facts of their
    first records are returned all the same. *)
Lemma expand_keeps_facts_of_failed_id :
  let out := fetch_graph_context sample_float_repr sample_neighbours sample_cities
               [VStr "attraction_1"; VStr "attraction_2"] start in
  exists fact1 fact2,
    fst out = Ok ([fact1; fact2], map connection_of (firstn 5 all_connections))
    /\ dict_get fact1 "source" VNone = VStr "attraction_1"
    /\ dict_get fact2 "source" VNone = VStr "attraction_2"
    /\ In (Printed "Error fetching graph context for attraction_1: 'int' object is not subscriptable")
          (trace (snd out))
    /\ In (Printed "Error fetching graph context for attraction_2: Connection lost")
          (trace (snd out)).
Proof.
  cbn zeta. eexists _, _. split; [vm_compute; reflexivity|].
  split; [reflexivity|]. split; [reflexivity|].
  split; vm_compute; tauto.
Qed.

(** [sample_cities] honours the [LIMIT] clause. *)
Lemma sample_cities_limit : store_honours_limit sample_cities.
Proof.
  intros q ids w n Hq. unfold sample_cities. cbn [fst fetched]. rewrite Hq. cbn [default from_option id].
  rewrite length_firstn. lia.
Qed.

Lemma city_connectivity_query_witness :
  exists facts conns st',
    fetch_graph_context sample_float_repr sample_neighbours sample_cities
      [VStr "attraction_1"; VStr "hotel_12"] start = (Ok (facts, conns), st')
    /\ List.filter is_graph_query (trace st')
       = [ GraphQuery q1 [("nid", VStr "attraction_1")];
           GraphQuery q1 [("nid", VStr "hotel_12")];
           GraphQuery q2 [("city_ids", VList [VStr "attraction_1"])] ]
    /\ length conns = 5%nat.
Proof.
  destruct (city_connectivity_query sample_float_repr nat sample_neighbours sample_cities
              [VStr "attraction_1"; VStr "hotel_12"] start sample_cities_limit)
    as [facts [conns [st' [sent [Hrun [Hsent [Hlen [Hone _]]]]]]]].
  exists facts, conns, st'. split; [exact Hrun|].
  vm_compute in Hrun. injection Hrun as <- <- <-.
  split; reflexivity.
Defined.

Lemma completion_failure_witness :
  fst (call_chat down_chat sample_prompt (snd sample_expanded))
  = VStr "Error calling OpenAI: Connection error."
  /\ fst (ask sample_float_repr sample_format_fixed steady_embeddings ranked_index sample_neighbours
            sample_cities down_chat sample_digest 2 sample_query start)
     = ([("answer", VStr "Error calling OpenAI: Connection error.")], 200).
Proof.
  destruct (completion_failure_is_answer sample_float_repr sample_format_fixed nat
              steady_embeddings ranked_index sample_neighbours sample_cities down_chat
              sample_digest 2 sample_prompt (snd sample_expanded)
              (ServiceError "Connection error.") eq_refl) as [Hanswer [_ Hpipeline]].
  split; [exact Hanswer|].
  rewrite (Hpipeline sample_query start (fst sample_retrieved) sample_ids [] [] (snd sample_retrieved)).
  - now rewrite Hanswer.
  - discriminate.
  - reflexivity.
  - reflexivity.
  - vm_compute. reflexivity.
  - reflexivity.
Defined.

Lemma semantic_section_witness :
  length twelve_matches = 12%nat
  /\ exists lines graph_lines city_block,
       lines = [ "- [city_hue] hue (City) in hue - Score: 0.250";
                 "- [city_hanoi] hanoi (City) in hanoi - Score: 0.250";
                 "- [city_sapa] sapa (City) in sapa - Score: 0.250";
                 "- [city_dalat] dalat (City) in dalat - Score: 0.250";
                 "- [city_hoian] hoian (City) in hoian - Score: 0.250";
                 "- [city_danang] danang (City) in danang - Score: 0.250";
                 "- [city_halong] halong (City) in halong - Score: 0.250";
                 "- [city_cantho] cantho (City) in cantho - Score: 0.250" ]
       /\ firstn 10 lines = lines
       /\ build_prompt sample_float_repr sample_format_fixed "A romantic week in Hue"
            twelve_matches [beach_fact; plain_fact] []
          = Ok [ [("role", VStr "system"); ("content", VStr system_prompt)];
                 [("role", VStr "user");
                  ("content",
                   VStr ("User Query: A romantic week in Hue" +:+ newline +:+ newline
                         +:+ "=== TOP SEMANTIC MATCHES (from vector search) ===" +:+ newline
                         +:+ str_join newline (firstn 10 lines) +:+ newline +:+ newline
                         +:+ "=== KNOWLEDGE GRAPH RELATIONSHIPS ===" +:+ newline
                         +:+ str_join newline (firstn 20 graph_lines)
                         +:+ city_block +:+ newline +:+ newline
                         +:+ "Based on the above context, create a detailed response. "
                         +:+ "Use node IDs in [brackets] when referencing specific places."))] ].
Proof.
  split; [reflexivity|].
  destruct (semantic_section_lines sample_float_repr sample_format_fixed "A romantic week in Hue"
              twelve_matches [beach_fact; plain_fact] [] eq_refl eq_refl eq_refl eq_refl)
    as [lines [graph_lines [city_block [Hlines [_ [_ [_ [Hcap Hbuild]]]]]]]].
  exists lines, graph_lines, city_block.
  split; [vm_compute in Hlines; now injection Hlines as <-|].
  split; [exact Hcap | exact Hbuild].
Defined.

Lemma filter_raises_on_untyped_fact_witness :
  fact_name nameless_fact = VNone
  /\ exists msg, filter_by_theme sample_float_repr [beach_fact; nameless_fact; plain_fact] "romantic"
                 = Raise (AttributeError msg).
Proof.
  split; [reflexivity|].
  apply (filter_raises_on_untyped_fact sample_float_repr "romantic"
           ["romantic"; "couple"; "sunset"; "beach"; "spa"; "dinner"; "cruise"]
           [beach_fact] nameless_fact [plain_fact]); reflexivity.
Defined.

Lemma fact_description_bounded_witness :
  fact_of (VStr "city_da_nang") row_nameless = Ok nameless_fact
  /\ exists cut rest,
       dict_get nameless_fact "target_desc" VNone = VStr cut
       /\ "A quiet beach" = cut +:+ rest /\ starts_character rest
       /\ str_len cut = Nat.min 400 (str_len "A quiet beach").
Proof.
  split; [reflexivity|].
  apply (fact_description_bounded (VStr "city_da_nang") row_nameless nameless_fact eq_refl).
  reflexivity.
Defined.

Lemma blank_query_rejected_witness :
  ask sample_float_repr sample_format_fixed steady_embeddings ranked_index sample_neighbours
    sample_cities down_chat sample_digest 2 (" " +:+ ideographic_space +:+ " ") start
  = (([("error", VStr "Empty query")], 400), start).
Proof. apply blank_query_rejected. reflexivity. Defined.

End ScenariosChecked.

(** * Further properties *)

(** ** The theme classifier and the theme filter *)


Lemma not_contains kw s : ~ occurs_in kw s -> str_contains kw s = false.
Proof.
  intros H. destruct (str_contains kw s) eqn:E; [|reflexivity].
  exfalso. apply H. now apply str_contains_spec.
Qed.

(** X4: the theme of a query is the first of romantic, adventure, cultural,
    family, in this order, that occurs as a substring of the lower-cased
    query, whatever other theme names occur after it in the list. *)
Theorem detect_theme_first_wins {unicode : Unicode} (query : string) (earlier : list string) (theme : string)
    (later : list string) :
  themes = (earlier ++ theme :: later)%list ->
  occurs_in theme (str_lower query) ->
  (forall t, In t earlier -> ~ occurs_in t (str_lower query)) ->
  detect_theme query = theme.
Proof.
  intros Hsplit Hocc Hnone. apply str_contains_spec in Hocc.
  assert (Hno : forall t, In t earlier -> str_contains t (str_lower query) = false).
  { intros t Ht. apply not_contains. now apply Hnone. }
  unfold themes in Hsplit. unfold detect_theme.
  destruct earlier as [|e1 [|e2 [|e3 [|e4 more]]]]; cbn [app] in Hsplit;
    injection Hsplit; intros; subst; cbn [In] in Hno.
  - now rewrite Hocc.
  - rewrite (Hno "romantic") by auto. now rewrite Hocc.
  - rewrite (Hno "romantic"), (Hno "adventure") by auto. now rewrite Hocc.
  - rewrite (Hno "romantic"), (Hno "adventure"), (Hno "cultural") by auto. now rewrite Hocc.
  - destruct more; discriminate.
Qed.

Lemma In_take {A} n (xs : list A) x : In x (firstn n xs) -> In x xs.
Proof.
  revert n. induction xs as [|y xs IH]; intros [|n]; cbn [firstn In]; try tauto.
  intros [->|H]; [now left | right; eauto].
Qed.

Lemma forallb_take {A} (p : A -> bool) n xs : forallb p xs = true -> forallb p (firstn n xs) = true.
Proof. rewrite !forallb_forall. intros H x Hx. apply H. eapply In_take, Hx. Qed.

Section FilterMore.
Context {unicode : Unicode}.
Variable float_repr : float -> string.

Lemma theme_loop_sublist kws facts acc out :
  theme_loop float_repr kws facts acc = Ok out ->
  exists kept, out = (acc ++ kept)%list /\ sublist kept facts.
Proof.
  revert acc. induction facts as [|f facts IH]; intros acc; cbn [theme_loop].
  - intros H. injection H as <-. exists []. rewrite app_nil_r. split; [reflexivity | constructor].
  - destruct (fact_matches float_repr kws f) as [hit|e]; [|discriminate].
    cbn [mbind result_bind]. intros H. destruct (IH _ H) as [kept [-> Hsub]].
    destruct hit.
    + exists (f :: kept). rewrite <- app_assoc. split; [reflexivity | now constructor].
    + exists kept. split; [reflexivity | now constructor].
Qed.

(** X5: whenever [filter_by_theme] returns, what it returns is a sublist of
    the facts it was given: facts of the input, in the order of the input,
    none of them made up or repeated, so never more than the input has. *)
Theorem filter_returns_sublist (facts : list dict) (theme : string) (out : list dict) :
  filter_by_theme float_repr facts theme = Ok out ->
  sublist out facts /\ (length out <= length facts)%nat.
Proof.
  intros H. assert (Hsub : sublist out facts).
  { unfold filter_by_theme in H.
    destruct (default [] (assoc (str_lower theme) theme_keywords)) as [|kw kws].
    - injection H as <-. reflexivity.
    - destruct (theme_loop float_repr (kw :: kws) facts []) as [filtered|e] eqn:Hloop; [|discriminate].
      cbn [mbind result_bind mret result_ret] in H. injection H as <-.
      destruct (theme_loop_sublist _ _ _ _ Hloop) as [kept [-> Hkept]]. cbn [app].
      destruct kept; [apply sublist_take | exact Hkept]. }
  split; [exact Hsub | now apply sublist_length].
Qed.

Lemma filter_filter {A} (p : A -> bool) xs : List.filter p (List.filter p xs) = List.filter p xs.
Proof.
  induction xs as [|x xs IH]; [reflexivity|]. cbn [List.filter].
  destruct (p x) eqn:E; [|exact IH]. cbn [List.filter]. now rewrite E, IH.
Qed.

Lemma filter_nil_firstn {A} (p : A -> bool) n xs : List.filter p xs = [] -> List.filter p (firstn n xs) = [].
Proof.
  revert n. induction xs as [|x xs IH]; intros [|n]; cbn [firstn List.filter]; try reflexivity.
  destruct (p x); [discriminate | apply IH].
Qed.

Lemma firstn_firstn_same {A} n (xs : list A) : firstn n (firstn n xs) = firstn n xs.
Proof. apply firstn_all_short. rewrite length_firstn. lia. Qed.

(** X6: on facts whose description and name are strings, filtering the result
    of [filter_by_theme] again by the same theme changes nothing, also when
    the first call fell back to the first 10 facts. *)
Theorem filter_idempotent (facts : list dict) (theme : string) :
  forallb fact_typed facts = true ->
  exists out,
    filter_by_theme float_repr facts theme = Ok out
    /\ filter_by_theme float_repr out theme = Ok out.
Proof.
  intros Hty. destruct (assoc (str_lower theme) theme_keywords) as [kws|] eqn:Hmap.
  - rewrite (filter_by_theme_mapped float_repr _ _ _ Hmap Hty). cbn zeta.
    destruct (List.filter (keyword_hit float_repr kws) facts) as [|h hits] eqn:Hf.
    + exists (firstn 10 facts). split; [reflexivity|].
      rewrite (filter_by_theme_mapped float_repr _ _ _ Hmap (forallb_take _ _ _ Hty)). cbn zeta.
      rewrite (filter_nil_firstn _ _ _ Hf). now rewrite firstn_firstn_same.
    + exists (h :: hits). split; [reflexivity|]. rewrite <- Hf.
      rewrite (filter_by_theme_mapped float_repr _ _ _ Hmap (forallb_filter _ _ _ Hty)). cbn zeta.
      rewrite filter_filter, Hf. reflexivity.
  - exists facts. unfold filter_by_theme. rewrite Hmap. split; reflexivity.
Qed.

End FilterMore.

(** ** The prompt assembler *)

Lemma str_append_assoc (a b c : string) : (a +:+ b) +:+ c = a +:+ (b +:+ c).
Proof.
  induction a as [|x a IH]; [reflexivity|].
  change (String x ((a +:+ b) +:+ c) = String x (a +:+ b +:+ c)). now rewrite IH.
Qed.

Lemma join_items_strings i ts : join_items i (map VStr ts) = Ok ts.
Proof.
  revert i. induction ts as [|t ts IH]; intros i; [reflexivity|].
  cbn [map join_items]. now rewrite IH.
Qed.

Lemma map_result_length {A B} (f : A -> result B) xs ys :
  map_result f xs = Ok ys -> length ys = length xs.
Proof.
  revert ys. induction xs as [|x xs IH]; intros ys; cbn [map_result].
  - intros H. now injection H as <-.
  - destruct (f x) as [y|e]; [|discriminate]. cbn [mbind result_bind].
    destruct (map_result f xs) as [ys'|e]; [|discriminate].
    intros H. injection H as <-. cbn [length]. now rewrite (IH ys').
Qed.

Lemma map_result_total {A B} (f : A -> result B) xs :
  (forall x, In x xs -> exists y, f x = Ok y) -> exists ys, map_result f xs = Ok ys.
Proof.
  induction xs as [|x xs IH]; intros Hall; [now exists []|].
  destruct (Hall x (or_introl eq_refl)) as [y Hy].
  destruct IH as [ys Hys]; [intros z Hz; apply Hall; now right|].
  exists (y :: ys). cbn [map_result]. now rewrite Hy, Hys.
Qed.

Section PromptMore.
Context {unicode : Unicode}.
Variable float_repr : float -> string.
Variable format_fixed : nat -> value -> result string.

(** X7: the line of a match whose tags are a list of strings shows the first
    three tags only, joined by a comma and a space, and no tags part at all
    when the list is empty. *)
Theorem render_match_tags (m : dict) (mid : value) (meta : dict) (shown : string) (ts : list string) :
  dict_item m "id" = Ok mid ->
  dict_get m "metadata" (VDict []) = VDict meta ->
  format_fixed 3 (dict_get m "score" (VInt 0)) = Ok shown ->
  dict_get meta "tags" VNone = VList (map VStr ts) ->
  render_match float_repr format_fixed m
  = Ok (match ts with
        | [] => snippet_head float_repr mid meta shown
        | _ => snippet_head float_repr mid meta shown +:+ " | Tags: " +:+ str_join ", " (firstn 3 ts)
        end).
Proof.
  intros Hid Hmeta Hshown Htags. unfold render_match. rewrite Hid, Hmeta, Hshown.
  cbn [mbind result_bind value_get mret result_ret]. rewrite Htags.
  destruct ts as [|t ts]; [reflexivity|].
  cbn [truthy map].
  assert (Hsame : dict_get meta "tags" (VList []) = VList (map VStr (t :: ts))).
  { unfold dict_get in *. destruct (assoc "tags" meta); [exact Htags | discriminate]. }
  rewrite Hsame. unfold tags_suffix. cbn [value_take mbind result_bind value_join].
  rewrite firstn_map, join_items_strings. reflexivity.
Qed.



(** X9: the city block of the prompt has one line per connection, without a
    cap of its own, under a fixed heading; with no connection the block is
    empty, heading included. *)
Theorem city_block_lines (connections : list dict) :
  forallb connection_renderable connections = true ->
  exists rows,
    map_result (render_connection float_repr) connections = Ok rows
    /\ length rows = length connections
    /\ city_context_of float_repr connections
       = Ok (match connections with
             | [] => ""
             | _ => newline +:+ newline +:+ "City Connections (for multi-day planning):"
                    +:+ newline +:+ str_join newline rows
             end).
Proof.
  intros Hconn.
  destruct (map_result_total (render_connection float_repr) connections) as [rows Hrows].
  { intros x Hin. apply render_connection_ok. eapply forallb_In; eauto. }
  exists rows. split; [exact Hrows|]. split; [exact (map_result_length _ _ _ Hrows)|].
  unfold city_context_of. destruct connections; [reflexivity|]. now rewrite Hrows.
Qed.

Lemma summary_line_ok i m :
  match_summarizable format_fixed m = true ->
  exists rest, summary_line float_repr format_fixed i m = Ok (pretty i +:+ ". " +:+ rest).
Proof.
  unfold match_summarizable, summary_line. rewrite andb_true_iff. intros [Hscore Hmeta].
  destruct (dict_get m "metadata" (VDict [])); try discriminate.
  destruct (format_fixed 2 (dict_get m "score" (VInt 0))) as [shown|]; [|discriminate].
  eexists. reflexivity.
Qed.

Lemma summary_lines_ok i ms :
  forallb (match_summarizable format_fixed) ms = true ->
  exists lines,
    summary_lines float_repr format_fixed i ms = Ok lines
    /\ length lines = length ms
    /\ forall k line, nth_error lines k = Some line ->
         str_startswith (pretty (i + k)%nat +:+ ". ") line = true.
Proof.
  revert i. induction ms as [|m ms IH]; intros i Hall.
  - exists []. split; [reflexivity|]. split; [reflexivity|]. intros [|k] line H; discriminate.
  - cbn [forallb] in Hall. apply andb_true_iff in Hall as [Hm Hms].
    destruct (summary_line_ok i m Hm) as [rest Hline].
    destruct (IH (S i) Hms) as [lines [Hlines [Hlen Hnum]]].
    exists ((pretty i +:+ ". " +:+ rest) :: lines). cbn [summary_lines]. rewrite Hline, Hlines.
    split; [reflexivity|]. split; [cbn [length]; now rewrite Hlen|].
    intros [|k] line H; cbn [nth_error] in H.
    + injection H as <-. rewrite Nat.add_0_r. apply str_startswith_spec.
      exists rest. now rewrite str_append_assoc.
    + replace (i + S k)%nat with (S i + k)%nat by lia. now apply Hnum.
Qed.

(** X10: [summarize_top_nodes] reads the first three matches only: it returns
    the fixed sentence for no match and otherwise at most three lines,
    numbered from 1, even when a later match is malformed. *)
Theorem summarize_top_three (matches : list dict) :
  forallb (match_summarizable format_fixed) (firstn 3 matches) = true ->
  exists lines,
    summarize_top_nodes float_repr format_fixed matches
    = Ok (match matches with
          | [] => "No relevant results found."
          | _ => str_join newline lines
          end)
    /\ length lines = Nat.min 3 (length matches)
    /\ forall k line, nth_error lines k = Some line ->
         str_startswith (pretty (S k) +:+ ". ") line = true.
Proof.
  intros Hall. destruct (summary_lines_ok 1 _ Hall) as [lines [Hlines [Hlen Hnum]]].
  exists lines. rewrite length_firstn in Hlen. split; [|split; [exact Hlen | exact Hnum]].
  unfold summarize_top_nodes. destruct matches; [reflexivity|]. now rewrite Hlines.
Qed.

End PromptMore.

(** ** The embedding cache and the retriever, further *)

Section ServicesMore.
Context {unicode : Unicode}.
Variable World : Type.
Variable embeddings_create : string -> list string -> World -> result (list vector) * World.
Variable index_query : vector -> nat -> World -> result (list dict) * World.
Variable chat_create : string -> list dict -> Z -> float -> World -> result (list value) * World.
Variable md5_hexdigest : string -> string.
Variable PINECONE_VECTOR_DIM : Z.

Local Abbreviation embed := (embed_text embeddings_create md5_hexdigest PINECONE_VECTOR_DIM).
Local Abbreviation retrieve := (pinecone_query embeddings_create index_query md5_hexdigest PINECONE_VECTOR_DIM).
Local Abbreviation complete := (call_chat chat_create).

(** The three ways a call of [embed_text] can go. *)
Lemma embed_cases text (st : state World) :
  let key := md5_hexdigest text in
  let asked := set_world (snd (embeddings_create EMBED_MODEL [text] (world st)))
                 (emit (EmbeddingRequest EMBED_MODEL [text]) st) in
  (exists v, EMBEDDING_CACHE st !! key = Some v /\ embed text st = (v, st))
  \/ (EMBEDDING_CACHE st !! key = None
      /\ exists v, fst (embeddings_create EMBED_MODEL [text] (world st)) ≫= first_item = Ok v
                   /\ embed text st = (v, cache_store key v asked))
  \/ (EMBEDDING_CACHE st !! key = None
      /\ exists e, fst (embeddings_create EMBED_MODEL [text] (world st)) ≫= first_item = Raise e
                   /\ embed text st
                      = (repeat 0%float (Z.to_nat PINECONE_VECTOR_DIM),
                         print ("Error generating embedding: " +:+ exn_str e) asked)).
Proof.
  cbn zeta. unfold embed_text.
  destruct (EMBEDDING_CACHE st !! md5_hexdigest text) as [v|] eqn:Hc; [left; eauto|].
  right. destruct (embeddings_create EMBED_MODEL [text] (world st)) as [resp w]. cbn [fst snd].
  destruct (resp ≫= first_item) as [v|e]; [left | right]; eauto.
Qed.

Lemma embed_trace_ignored (p : event -> bool) text (st : state World) :
  ignores_embedding p ->
  List.filter p (trace (snd (embed text st))) = List.filter p (trace st).
Proof.
  intros [Hprint Hreq].
  destruct (embed_cases text st) as [[v [_ ->]] | [[_ [v [_ ->]]] | [_ [e [_ ->]]]]];
    cbn [snd trace cache_store set_world emit print]; rewrite ?List.filter_app; cbn [List.filter];
    rewrite ?Hprint, ?Hreq, ?app_nil_r; reflexivity.
Qed.

Lemma embed_cache_cases text (st : state World) :
  EMBEDDING_CACHE (snd (embed text st)) = EMBEDDING_CACHE st
  \/ (EMBEDDING_CACHE st !! md5_hexdigest text = None
      /\ EMBEDDING_CACHE (snd (embed text st))
         = <[md5_hexdigest text := fst (embed text st)]> (EMBEDDING_CACHE st)).
Proof.
  destruct (embed_cases text st) as [[v [_ ->]] | [[Hmiss [v [_ ->]]] | [_ [e [_ ->]]]]];
    cbn [fst snd]; auto.
Qed.

(** X11: a call of [embed_text] never removes or replaces an entry of the
    cache: every key other than the digest of the text keeps its state, and
    every key that had a vector keeps that vector. *)
Theorem embed_cache_grows text (st : state World) (key : string) :
  (key <> md5_hexdigest text ->
     EMBEDDING_CACHE (snd (embed text st)) !! key = EMBEDDING_CACHE st !! key)
  /\ (forall v, EMBEDDING_CACHE st !! key = Some v ->
        EMBEDDING_CACHE (snd (embed text st)) !! key = Some v).
Proof.
  destruct (embed_cache_cases text st) as [-> | [Hmiss ->]]; [auto|]. split.
  - intros Hne. now rewrite lookup_insert_ne.
  - intros v Hv. rewrite lookup_insert_ne; [exact Hv|]. intros <-. congruence.
Qed.

(** X12: the cache is keyed by the digest alone: once a text is cached, a call
    for another text with the same digest returns the vector of the first text
    and sends no request. *)
Theorem embed_shared_digest (text other : string) (st : state World) :
  md5_hexdigest other = md5_hexdigest text ->
  (is_Some (EMBEDDING_CACHE st !! md5_hexdigest text)
   \/ exists v rest, fst (embeddings_create EMBED_MODEL [text] (world st)) = Ok (v :: rest)) ->
  let first := embed text st in
  let second := embed other (snd first) in
  fst second = fst first /\ snd second = snd first.
Proof.
  intros Hsame Hcase. cbn zeta.
  assert (Hstored : EMBEDDING_CACHE (snd (embed text st)) !! md5_hexdigest other
                    = Some (fst (embed text st))).
  { rewrite Hsame. destruct (EMBEDDING_CACHE st !! md5_hexdigest text) as [c|] eqn:Hc.
    - now rewrite (embed_hit _ _ _ _ _ _ _ Hc).
    - destruct Hcase as [[c Hsome] | [v [rest Hok]]]; [discriminate|].
      rewrite (embed_miss_ok _ _ _ _ _ _ _ _ Hc Hok). cbn [fst snd cache_store EMBEDDING_CACHE].
      apply lookup_insert_eq. }
  now rewrite (embed_hit _ _ _ _ _ _ _ Hstored).
Qed.

(** X13: a response of the embedding service that holds no embedding is
    handled like a failure: a vector of zeros is returned, nothing is cached
    and the index error is printed. *)
Theorem embed_without_embedding text (st : state World) :
  EMBEDDING_CACHE st !! md5_hexdigest text = None ->
  fst (embeddings_create EMBED_MODEL [text] (world st)) = Ok [] ->
  let out := embed text st in
  fst out = repeat 0%float (Z.to_nat PINECONE_VECTOR_DIM)
  /\ EMBEDDING_CACHE (snd out) = EMBEDDING_CACHE st
  /\ trace (snd out) = (trace st ++ [EmbeddingRequest EMBED_MODEL [text];
                                    Printed "Error generating embedding: list index out of range"])%list.
Proof.
  intros Hmiss Hempty. cbn zeta. unfold embed_text. rewrite Hmiss.
  destruct (embeddings_create EMBED_MODEL [text] (world st)) as [resp w].
  cbn [fst] in Hempty. subst resp. cbn. rewrite <- app_assoc. auto.
Qed.

Lemma retrieve_unfold query_text top_k (st : state World) :
  let embedded := embed query_text st in
  let answer := index_query (fst embedded) top_k (world (snd embedded)) in
  exists line,
    retrieve query_text top_k st
    = (match fst answer with Ok matches => matches | Raise _ => [] end,
       print line (set_world (snd answer) (emit (IndexQuery (fst embedded) top_k) (snd embedded)))).
Proof.
  cbn zeta. unfold pinecone_query. destruct (embed query_text st) as [vec st1]. cbn [fst snd].
  destruct (index_query vec top_k (world st1)) as [[matches|e] w]; eexists; reflexivity.
Qed.

Lemma retrieve_cache query_text top_k (st : state World) :
  EMBEDDING_CACHE (snd (retrieve query_text top_k st))
  = EMBEDDING_CACHE (snd (embed query_text st)).
Proof. destruct (retrieve_unfold query_text top_k st) as [line ->]. reflexivity. Qed.

Lemma retrieve_index_queries query_text top_k (st : state World) :
  List.filter is_index_query (trace (snd (retrieve query_text top_k st)))
  = (List.filter is_index_query (trace st) ++ [IndexQuery (fst (embed query_text st)) top_k])%list.
Proof.
  destruct (retrieve_unfold query_text top_k st) as [line ->].
  cbn [snd trace print emit set_world]. rewrite !List.filter_app. cbn [List.filter is_index_query].
  rewrite app_nil_r. f_equal. apply embed_trace_ignored. split; reflexivity.
Qed.

Lemma retrieve_trace_ignored (p : event -> bool) query_text top_k (st : state World) :
  ignores_embedding p -> (forall vec k, p (IndexQuery vec k) = false) ->
  List.filter p (trace (snd (retrieve query_text top_k st))) = List.filter p (trace st).
Proof.
  intros Hp Hindex. destruct (retrieve_unfold query_text top_k st) as [line ->].
  cbn [snd trace print emit set_world]. rewrite !List.filter_app. cbn [List.filter].
  rewrite Hindex, (proj1 Hp), !app_nil_r. now apply embed_trace_ignored.
Qed.

(** X14: when the embedding request fails, [pinecone_query] still queries the
    index, once, with the vector of zeros, and returns what the index returns
    for it; nothing is cached. *)
Theorem retrieve_with_zero_vector query_text top_k (st : state World) e :
  EMBEDDING_CACHE st !! md5_hexdigest query_text = None ->
  fst (embeddings_create EMBED_MODEL [query_text] (world st)) = Raise e ->
  let zeros := repeat 0%float (Z.to_nat PINECONE_VECTOR_DIM) in
  let answer := index_query zeros top_k (snd (embeddings_create EMBED_MODEL [query_text] (world st))) in
  let out := retrieve query_text top_k st in
  fst out = match fst answer with Ok matches => matches | Raise _ => [] end
  /\ List.filter is_index_query (trace (snd out))
     = (List.filter is_index_query (trace st) ++ [IndexQuery zeros top_k])%list
  /\ EMBEDDING_CACHE (snd out) = EMBEDDING_CACHE st.
Proof.
  intros Hmiss Hfail. cbn zeta.
  assert (Hembed : embed query_text st
                   = (repeat 0%float (Z.to_nat PINECONE_VECTOR_DIM),
                      print ("Error generating embedding: " +:+ exn_str e)
                        (set_world (snd (embeddings_create EMBED_MODEL [query_text] (world st)))
                           (emit (EmbeddingRequest EMBED_MODEL [query_text]) st)))).
  { unfold embed_text. rewrite Hmiss.
    destruct (embeddings_create EMBED_MODEL [query_text] (world st)) as [resp w].
    cbn [fst] in Hfail. subst resp. reflexivity. }
  rewrite retrieve_index_queries, retrieve_cache.
  destruct (retrieve_unfold query_text top_k st) as [line ->].
  rewrite Hembed. cbn [fst snd world print emit set_world EMBEDDING_CACHE]. auto.
Qed.

Lemma complete_unfold messages (st : state World) :
  let answer := chat_create CHAT_MODEL messages 800 0.3%float (world st) in
  complete messages st
  = (match fst answer ≫= first_item with
     | Ok content => content
     | Raise e => VStr ("Error calling OpenAI: " +:+ exn_str e)
     end,
     set_world (snd answer) (emit (ChatRequest CHAT_MODEL messages 800 0.3%float) st)).
Proof.
  cbn zeta. unfold call_chat.
  destruct (chat_create CHAT_MODEL messages 800 0.3%float (world st)) as [resp w]. cbn [fst snd].
  destruct (resp ≫= first_item); reflexivity.
Qed.

(** X15: [call_chat] sends one request with the fixed model, 800 tokens and
    temperature 0.3 and returns the content of the first choice; a response
    without choices gives the error string of an index error instead of an
    exception. The cache is left alone. *)
Theorem complete_first_choice messages (st : state World) :
  let answer := fst (chat_create CHAT_MODEL messages 800 0.3%float (world st)) in
  let out := complete messages st in
  (forall content others, answer = Ok (content :: others) -> fst out = content)
  /\ (answer = Ok [] -> fst out = VStr "Error calling OpenAI: list index out of range")
  /\ trace (snd out) = (trace st ++ [ChatRequest CHAT_MODEL messages 800 0.3%float])%list
  /\ EMBEDDING_CACHE (snd out) = EMBEDDING_CACHE st.
Proof.
  cbn zeta. rewrite complete_unfold. cbn [fst snd trace EMBEDDING_CACHE set_world emit].
  split; [|split]; [| |split; reflexivity].
  - intros content others ->. reflexivity.
  - intros ->. reflexivity.
Qed.

End ServicesMore.

(** ** The graph expander, further *)

Lemma append_facts_from nid rows f :
  In f (fst (append_facts nid rows [])) -> exists r, In r rows /\ fact_of nid r = Ok f.
Proof.
  induction rows as [|r rows IH]; cbn [append_facts]; [intros []|].
  destruct (fact_of nid r) as [g|e] eqn:Hg; [|intros []].
  rewrite append_facts_acc. cbn [fst app]. intros [<- | Hin].
  - exists r. split; [now left | exact Hg].
  - destruct (IH Hin) as [r' [Hr' Hf]]. exists r'. split; [now right | exact Hf].
Qed.

Lemma append_facts_count nid rows :
  (length (fst (append_facts nid rows [])) <= length rows)%nat.
Proof.
  induction rows as [|r rows IH]; cbn [append_facts]; [reflexivity|].
  destruct (fact_of nid r) as [g|e]; [|cbn; lia].
  rewrite append_facts_acc. cbn [fst app length]. lia.
Qed.

Lemma fact_of_keys nid r f :
  fact_of nid r = Ok f -> map fst f = fact_keys /\ dict_get f "source" VNone = nid.
Proof.
  unfold fact_of. destruct (value_take _ _) as [desc|e]; [|discriminate].
  intros H. injection H as <-. split; reflexivity.
Qed.

Section GraphMore.
Context {unicode : Unicode}.
Variable float_repr : float -> string.
Variable World : Type.
Variable run_neighbours : string -> value -> World -> cursor neighbour_row * World.
Variable run_cities : string -> list value -> World -> cursor city_row * World.

Local Abbreviation expand := (fetch_graph_context float_repr run_neighbours run_cities).
Local Abbreviation cursors_of := (neighbour_cursors run_neighbours).

Lemma cursors_from_store ids w nid c :
  In (nid, c) (cursors_of ids w) ->
  In nid ids /\ exists w', c = fst (run_neighbours q1 nid w').
Proof.
  revert w. induction ids as [|i ids IH]; intros w; cbn [neighbour_cursors]; [intros []|].
  destruct (run_neighbours q1 i w) as [ci w1] eqn:Hrun. intros [Heq | Hin].
  - injection Heq as <- <-. split; [now left|]. exists w. now rewrite Hrun.
  - destruct (IH _ Hin) as [Hid Hc]. split; [now right | exact Hc].
Qed.

Lemma city_step_cases city_ids (st : state World) :
  let out := fetch_city_connections run_cities city_ids st in
  EMBEDDING_CACHE (snd out) = EMBEDDING_CACHE st
  /\ (forall c, In c (fst out) -> map fst c = connection_keys)
  /\ forall p, ignores_graph p -> List.filter p (trace (snd out)) = List.filter p (trace st).
Proof.
  cbn zeta. unfold fetch_city_connections. destruct city_ids as [|cid cids].
  - cbn [fst snd]. split; [reflexivity|]. split; [intros c []|]. reflexivity.
  - destruct (run_cities q2 (cid :: cids) (world st)) as [recs w].
    destruct (failure recs); cbn [fst snd EMBEDDING_CACHE trace print emit set_world].
    + split; [reflexivity|]. split; [intros c []|].
      intros p [Hprint Hquery]. rewrite !List.filter_app. cbn [List.filter].
      now rewrite Hprint, Hquery, !app_nil_r.
    + split; [reflexivity|]. split.
      * intros c Hin. apply in_map_iff in Hin as [r [<- _]]. reflexivity.
      * intros p [Hprint Hquery]. rewrite !List.filter_app. cbn [List.filter].
        now rewrite Hquery, !app_nil_r.
Qed.

Lemma node_events_ignored p cs :
  ignores_graph p -> List.filter p (flat_map (node_events float_repr) cs) = [].
Proof.
  intros [Hprint Hquery]. induction cs as [|[nid c] cs IH]; [reflexivity|].
  cbn [flat_map]. rewrite List.filter_app, IH, app_nil_r. unfold node_events. cbn [fst snd List.filter].
  rewrite Hquery. destruct (node_error nid c); cbn [List.filter]; now rewrite ?Hprint.
Qed.

(** What [fetch_graph_context] returns, from the loop over the ids and the
    city step. *)
Lemma expand_unfold ids (st : state World) :
  let looped := expanded float_repr run_neighbours ids [] st in
  let cities := fetch_city_connections run_cities (city_sources (fst looped)) (snd looped) in
  exists line,
    expand ids st = (Ok (fst looped, fst cities), print line (snd cities)).
Proof.
  cbn zeta. unfold fetch_graph_context. rewrite expand_nodes.
  destruct (expanded float_repr run_neighbours ids [] st) as [facts st1] eqn:Hloop.
  assert (Hfacts : facts = flat_map (fun nc => node_facts (fst nc) (snd nc)) (cursors_of ids (world st))).
  { unfold expanded in Hloop. now injection Hloop as <- _. }
  rewrite (city_ids_built facts); [|rewrite Hfacts; apply expanded_facts_built].
  cbn [fst snd].
  destruct (fetch_city_connections run_cities (city_sources facts) st1) as [conns st2].
  eexists. reflexivity.
Qed.

Lemma expand_cache ids (st : state World) :
  EMBEDDING_CACHE (snd (expand ids st)) = EMBEDDING_CACHE st.
Proof.
  destruct (expand_unfold ids st) as [line ->]. cbn [snd EMBEDDING_CACHE print emit].
  now rewrite (proj1 (city_step_cases _ _)).
Qed.

Lemma expand_trace_ignored p ids (st : state World) :
  ignores_graph p ->
  List.filter p (trace (snd (expand ids st))) = List.filter p (trace st).
Proof.
  intros Hp. destruct (expand_unfold ids st) as [line ->].
  cbn [snd trace print emit]. rewrite List.filter_app. cbn [List.filter].
  rewrite (proj1 Hp), app_nil_r, (proj2 (proj2 (city_step_cases _ _)) p Hp).
  unfold expanded. cbn [snd trace]. rewrite List.filter_app, node_events_ignored by exact Hp.
  now rewrite app_nil_r.
Qed.

Lemma expand_ok ids (st : state World) :
  exists facts conns, fst (expand ids st) = Ok (facts, conns).
Proof. destruct (expand_unfold ids st) as [line ->]. eauto. Qed.

(** X16: every fact that [fetch_graph_context] returns has the eight keys of a
    fact, in order, and one of the given ids as its source; every connection
    has the three keys of a connection; the embedding cache is untouched. *)
Theorem expand_facts_shape ids (st : state World) :
  exists facts conns st',
    expand ids st = (Ok (facts, conns), st')
    /\ EMBEDDING_CACHE st' = EMBEDDING_CACHE st
    /\ (forall f, In f facts -> map fst f = fact_keys /\ In (dict_get f "source" VNone) ids)
    /\ (forall c, In c conns -> map fst c = connection_keys).
Proof.
  pose proof (expand_cache ids st) as Hcache.
  destruct (expand_unfold ids st) as [line Hrun]. rewrite Hrun in Hcache.
  eexists _, _, _. split; [exact Hrun|]. split; [exact Hcache|]. split.
  - unfold expanded. cbn [fst app]. intros f Hin.
    apply in_flat_map in Hin as [[nid c] [Hnc Hf]]. cbn [fst snd] in Hf.
    destruct (append_facts_from _ _ _ Hf) as [r [_ Hr]].
    destruct (fact_of_keys _ _ _ Hr) as [Hkeys Hsrc].
    split; [exact Hkeys|]. rewrite Hsrc. exact (proj1 (cursors_from_store _ _ _ _ Hnc)).
  - exact (proj1 (proj2 (city_step_cases _ _))).
Qed.

(** X17: given a graph store that honours [LIMIT], [fetch_graph_context]
    returns at most 10 facts per given id (ids counted with repeats). *)
Theorem expand_facts_capped ids (st : state World) :
  neighbours_honour_limit run_neighbours ->
  exists facts conns,
    fst (expand ids st) = Ok (facts, conns)
    /\ (length facts <= 10 * length ids)%nat.
Proof.
  intros Hlimit. destruct (expand_unfold ids st) as [line ->].
  eexists _, _. split; [reflexivity|]. unfold expanded. cbn [fst app].
  rewrite <- (cursors_ids World run_neighbours ids (world st)) at 2. rewrite List.length_map.
  assert (Hall : forall nc, In nc (cursors_of ids (world st)) ->
                   (length (node_facts (fst nc) (snd nc)) <= 10)%nat).
  { intros [nid c] Hin. destruct (cursors_from_store _ _ _ _ Hin) as [_ [w' ->]].
    cbn [fst snd]. unfold node_facts.
    pose proof (append_facts_count nid (fetched (fst (run_neighbours q1 nid w')))) as Hcount.
    pose proof (Hlimit q1 nid w' 10%nat eq_refl). lia. }
  induction (cursors_of ids (world st)) as [|nc cs IH]; [cbn; lia|].
  cbn [flat_map length]. rewrite length_app.
  pose proof (Hall nc (or_introl eq_refl)).
  assert ((length (flat_map (fun nc => node_facts (fst nc) (snd nc)) cs) <= 10 * length cs)%nat).
  { apply IH. intros x Hx. apply Hall. now right. }
  lia.
Qed.

End GraphMore.

(** ** The endpoint and the interactive session *)

Lemma dict_item_cases k d :
  (has_key k d = true /\ exists v, dict_item d k = Ok v)
  \/ (has_key k d = false /\ dict_item d k = Raise (KeyError k)).
Proof. unfold has_key, dict_item. destruct (assoc k d); eauto. Qed.

Lemma ids_missing matches :
  forallb (has_key "id") matches = false ->
  map_result (fun m => dict_item m "id") matches = Raise (KeyError "id").
Proof.
  induction matches as [|m ms IH]; cbn [forallb map_result]; [discriminate|].
  destruct (dict_item_cases "id" m) as [[-> [v ->]] | [_ ->]]; [|reflexivity].
  cbn [andb mbind result_bind]. intros H. now rewrite (IH H).
Qed.

Lemma build_bare_prompt {unicode : Unicode} float_repr format_fixed query :
  build_prompt float_repr format_fixed query [] [] [] = Ok (bare_prompt query).
Proof.
  unfold build_prompt. rewrite andb_false_r. reflexivity.
Qed.

Lemma fact_matches_untyped {unicode : Unicode} float_repr kws f :
  fact_typed f = false -> exists msg, fact_matches float_repr kws f = Raise (AttributeError msg).
Proof.
  unfold fact_typed, fact_desc, fact_name, fact_matches.
  destruct (dict_get f "target_desc" (VStr "")); try (intros _; eexists; reflexivity);
    destruct (dict_get f "target_name" (VStr "")); try (intros _; eexists; reflexivity);
    discriminate.
Qed.

Lemma theme_loop_untyped {unicode : Unicode} float_repr kws facts acc :
  forallb fact_typed facts = false ->
  exists msg, theme_loop float_repr kws facts acc = Raise (AttributeError msg).
Proof.
  revert acc. induction facts as [|f facts IH]; intros acc; cbn [forallb theme_loop]; [discriminate|].
  destruct (fact_typed f) eqn:Hf.
  - rewrite (fact_matches_typed float_repr kws f Hf). cbn [andb mbind result_bind]. intros H. now apply IH.
  - intros _. destruct (fact_matches_untyped float_repr kws f Hf) as [msg ->]. now exists msg.
Qed.

Lemma print_all_cases {World} lines (st : state World) :
  EMBEDDING_CACHE (print_all lines st) = EMBEDDING_CACHE st
  /\ world (print_all lines st) = world st
  /\ forall p, (forall line, p (Printed line) = false) ->
       List.filter p (trace (print_all lines st)) = List.filter p (trace st).
Proof.
  revert st. induction lines as [|l lines IH]; intros st; cbn [print_all]; [auto|].
  destruct (IH (print l st)) as [Hc [Hw Ht]]. rewrite Hc, Hw. split; [reflexivity|].
  split; [reflexivity|]. intros p Hp. rewrite (Ht p Hp). cbn [trace print emit].
  rewrite List.filter_app. cbn [List.filter]. now rewrite Hp, app_nil_r.
Qed.

Section EndpointMore.
Context {unicode : Unicode}.
Variable float_repr : float -> string.
Variable format_fixed : nat -> value -> result string.
Variable World : Type.
Variable embeddings_create : string -> list string -> World -> result (list vector) * World.
Variable index_query : vector -> nat -> World -> result (list dict) * World.
Variable run_neighbours : string -> value -> World -> cursor neighbour_row * World.
Variable run_cities : string -> list value -> World -> cursor city_row * World.
Variable chat_create : string -> list dict -> Z -> float -> World -> result (list value) * World.
Variable md5_hexdigest : string -> string.
Variable PINECONE_VECTOR_DIM : Z.

Local Abbreviation embed := (embed_text embeddings_create md5_hexdigest PINECONE_VECTOR_DIM).
Local Abbreviation retrieve := (pinecone_query embeddings_create index_query md5_hexdigest PINECONE_VECTOR_DIM).
Local Abbreviation expand := (fetch_graph_context float_repr run_neighbours run_cities).
Local Abbreviation complete := (call_chat chat_create).
Local Abbreviation assemble := (build_prompt float_repr format_fixed).
Local Abbreviation endpoint := (ask float_repr format_fixed embeddings_create index_query run_neighbours
                                  run_cities chat_create md5_hexdigest PINECONE_VECTOR_DIM).
Local Abbreviation answer_one := (answer_query float_repr format_fixed embeddings_create index_query
                                    run_neighbours run_cities chat_create md5_hexdigest PINECONE_VECTOR_DIM).
Local Abbreviation loop := (chat_loop float_repr format_fixed embeddings_create index_query
                              run_neighbours run_cities chat_create md5_hexdigest PINECONE_VECTOR_DIM).
Local Abbreviation session := (interactive_chat float_repr format_fixed embeddings_create index_query
                                 run_neighbours run_cities chat_create md5_hexdigest PINECONE_VECTOR_DIM).

(** The ways a call of the endpoint can go, stage by stage. *)
Lemma endpoint_cases query (st : state World) :
  let q := str_strip query in
  let retrieved := retrieve q TOP_K st in
  (q = "" /\ endpoint query st = (([("error", VStr "Empty query")], 400), st))
  \/ (q <> "" /\
      ((exists e, map_result (fun m => dict_item m "id") (fst retrieved) = Raise e
                  /\ endpoint query st = (([("error", VStr (exn_str e))], 500), snd retrieved))
       \/ exists match_ids facts conns st2,
            map_result (fun m => dict_item m "id") (fst retrieved) = Ok match_ids
            /\ expand match_ids (snd retrieved) = (Ok (facts, conns), st2)
            /\ ((exists e, assemble q (fst retrieved) facts conns = Raise e
                           /\ endpoint query st = (([("error", VStr (exn_str e))], 500), st2))
                \/ exists prompt, assemble q (fst retrieved) facts conns = Ok prompt
                     /\ endpoint query st
                        = (([("answer", fst (complete prompt st2))], 200), snd (complete prompt st2))))).
Proof.
  cbn zeta. unfold ask. destruct (String.eqb_spec (str_strip query) "") as [Hblank | Hquery]; [now left|].
  right. split; [exact Hquery|].
  destruct (retrieve (str_strip query) TOP_K st) as [matches st1]. cbn [fst snd].
  destruct (map_result (fun m => dict_item m "id") matches) as [match_ids|e]; [right | left; eauto].
  destruct (expand_ok float_repr World run_neighbours run_cities match_ids st1) as [facts [conns Hok]].
  destruct (expand match_ids st1) as [r st2] eqn:Hexp. cbn [fst] in Hok. subst r.
  exists match_ids, facts, conns, st2. split; [reflexivity|]. split; [exact Hexp|].
  destruct (assemble (str_strip query) matches facts conns) as [prompt|e]; [right | left; eauto].
  exists prompt. split; [reflexivity|]. now destruct (complete prompt st2).
Qed.

(** X18: the endpoint answers 400 exactly when the stripped query is empty;
    otherwise it answers 500 only when a match has no id or the prompt
    assembler raises, and 200 with an answer in every other case: no failure
    of a service gives a 500. *)
Theorem endpoint_status query (st : state World) :
  let q := str_strip query in
  let matches := fst (retrieve q TOP_K st) in
  let out := fst (endpoint query st) in
  (q = "" /\ out = ([("error", VStr "Empty query")], 400))
  \/ (q <> "" /\
      ((exists e, map_result (fun m => dict_item m "id") matches = Raise e
                  /\ out = ([("error", VStr (exn_str e))], 500))
       \/ (exists match_ids facts conns e,
             map_result (fun m => dict_item m "id") matches = Ok match_ids
             /\ fst (expand match_ids (snd (retrieve q TOP_K st))) = Ok (facts, conns)
             /\ assemble q matches facts conns = Raise e
             /\ out = ([("error", VStr (exn_str e))], 500))
       \/ exists answer, out = ([("answer", answer)], 200))).
Proof.
  cbn zeta. destruct (endpoint_cases query st) as [[Hq ->] | [Hq Hrest]]; [now left|].
  right. split; [exact Hq|].
  destruct Hrest as [[e [Hids ->]] | [ids [facts [conns [st2 [Hids [Hexp Hrest]]]]]]]; [left; eauto|].
  right. destruct Hrest as [[e [Hbuild ->]] | [prompt [_ ->]]]; [left | right; eauto].
  exists ids, facts, conns, e. rewrite Hexp. auto.
Qed.

(** X19: when one of the retrieved matches has no id, the endpoint answers 500
    with the error text 'id' right after the retrieval: no graph query and no
    chat request is sent. *)
Theorem endpoint_match_without_id query (st : state World) :
  str_strip query <> "" ->
  forallb (has_key "id") (fst (retrieve (str_strip query) TOP_K st)) = false ->
  endpoint query st
  = (([("error", VStr "'id'")], 500), snd (retrieve (str_strip query) TOP_K st)).
Proof.
  intros Hq Hmissing. unfold ask. destruct (String.eqb_spec (str_strip query) "") as [|_]; [contradiction|].
  destruct (retrieve (str_strip query) TOP_K st) as [matches st1]. cbn [fst snd] in *.
  now rewrite (ids_missing _ Hmissing).
Qed.

(** X20: when the query to the vector index raises, the endpoint still answers
    200: it sends no graph query and sends the chat request with the prompt
    that has the query and two empty sections. *)
Theorem endpoint_without_matches query (st : state World) e :
  let q := str_strip query in
  let embedded := embed q st in
  q <> "" ->
  fst (index_query (fst embedded) TOP_K (world (snd embedded))) = Raise e ->
  let out := endpoint query st in
  (exists answer, fst out = ([("answer", answer)], 200))
  /\ List.filter is_graph_query (trace (snd out)) = List.filter is_graph_query (trace st)
  /\ List.filter is_chat_request (trace (snd out))
     = (List.filter is_chat_request (trace st)
        ++ [ChatRequest CHAT_MODEL (bare_prompt q) 800 0.3%float])%list.
Proof.
  cbn zeta. intros Hq Hfail. unfold ask.
  destruct (String.eqb_spec (str_strip query) "") as [|_]; [contradiction|].
  pose proof (retrieve_trace_ignored World embeddings_create index_query md5_hexdigest
                PINECONE_VECTOR_DIM is_graph_query (str_strip query) TOP_K st) as Hgraph.
  pose proof (retrieve_trace_ignored World embeddings_create index_query md5_hexdigest
                PINECONE_VECTOR_DIM is_chat_request (str_strip query) TOP_K st) as Hchat.
  destruct (retrieve_unfold World embeddings_create index_query md5_hexdigest PINECONE_VECTOR_DIM
              (str_strip query) TOP_K st) as [line Hret].
  cbn zeta in Hret. rewrite Hfail in Hret. rewrite Hret in *. cbn [map_result].
  set (st1 := print line _) in *. cbn [snd] in Hgraph, Hchat.
  unfold fetch_graph_context. cbn [fold_left city_ids_of fetch_city_connections].
  rewrite build_bare_prompt, complete_unfold. cbn [fst snd].
  split; [eauto|]. cbn [trace set_world emit print]. rewrite !List.filter_app. cbn [List.filter is_graph_query is_chat_request].
  rewrite !app_nil_r, Hgraph, Hchat by (try split; reflexivity). auto.
Qed.

Lemma endpoint_cache query (st : state World) :
  EMBEDDING_CACHE (snd (endpoint query st)) = EMBEDDING_CACHE st
  \/ EMBEDDING_CACHE (snd (endpoint query st))
     = EMBEDDING_CACHE (snd (embed (str_strip query) st)).
Proof.
  pose proof (retrieve_cache World embeddings_create index_query md5_hexdigest PINECONE_VECTOR_DIM
                (str_strip query) TOP_K st) as Hret.
  destruct (endpoint_cases query st) as [[Hq ->] | [Hq Hrest]]; [now left|]. right.
  destruct Hrest as [[e [Hids ->]] | [ids [facts [conns [st2 [Hids [Hexp Hrest]]]]]]]; [exact Hret|].
  pose proof (expand_cache float_repr World run_neighbours run_cities ids
                (snd (retrieve (str_strip query) TOP_K st))) as Hexpc.
  rewrite Hexp in Hexpc. cbn [snd] in Hexpc.
  destruct Hrest as [[e [Hbuild ->]] | [prompt [_ ->]]]; cbn [snd].
  - now rewrite Hexpc.
  - rewrite complete_unfold. cbn [snd EMBEDDING_CACHE set_world emit]. now rewrite Hexpc.
Qed.

(** X21: across a whole call of the endpoint the embedding cache only grows:
    at most the digest of the stripped query is added, and no entry is removed
    or replaced. *)
Theorem endpoint_cache_grows query (st : state World) (key : string) :
  (key <> md5_hexdigest (str_strip query) ->
     EMBEDDING_CACHE (snd (endpoint query st)) !! key = EMBEDDING_CACHE st !! key)
  /\ (forall v, EMBEDDING_CACHE st !! key = Some v ->
        EMBEDDING_CACHE (snd (endpoint query st)) !! key = Some v).
Proof.
  destruct (endpoint_cache query st) as [-> | ->]; [auto|].
  destruct (embed_cache_cases World embeddings_create md5_hexdigest PINECONE_VECTOR_DIM
              (str_strip query) st) as [-> | [Hmiss ->]]; [auto|]. split.
  - intros Hne. now rewrite lookup_insert_ne.
  - intros v Hv. rewrite lookup_insert_ne; [exact Hv|]. intros <-. congruence.
Qed.

(** X22: when the query names a theme and the graph returns a fact whose
    description or name is not a string (a neighbour without a name), the
    endpoint answers 500 and it stops after the graph expansion, so no chat
    request is sent. *)
Theorem endpoint_untyped_fact query (st : state World) match_ids facts conns st2 :
  let q := str_strip query in
  q <> "" ->
  detect_theme q <> "" ->
  map_result (fun m => dict_item m "id") (fst (retrieve q TOP_K st)) = Ok match_ids ->
  expand match_ids (snd (retrieve q TOP_K st)) = (Ok (facts, conns), st2) ->
  forallb fact_typed facts = false ->
  exists msg, endpoint query st = (([("error", VStr msg)], 500), st2).
Proof.
  cbn zeta. intros Hq Htheme Hids Hexp Huntyped. unfold ask.
  destruct (String.eqb_spec (str_strip query) "") as [|_]; [contradiction|].
  destruct (retrieve (str_strip query) TOP_K st) as [matches st1]. cbn [fst snd] in *.
  rewrite Hids, Hexp.
  assert (Hraise : exists msg, assemble (str_strip query) matches facts conns = Raise (AttributeError msg)).
  { unfold build_prompt.
    destruct (String.eqb_spec (detect_theme (str_strip query)) "") as [|_]; [contradiction|].
    destruct facts as [|f facts]; [discriminate|]. cbn [negb andb].
    destruct (detect_theme_mapped (str_strip query)) as [|[kws Hmap]]; [contradiction|].
    unfold filter_by_theme. rewrite Hmap. cbn [default from_option id].
    pose proof (mapped_keywords _ _ Hmap) as Hne. destruct kws as [|kw kws]; [congruence|].
    destruct (theme_loop_untyped float_repr (kw :: kws) (f :: facts) [] Huntyped) as [msg ->].
    now exists msg. }
  destruct Hraise as [msg ->]. now exists msg.
Qed.

Lemma print_ignored (p : event -> bool) line (st : state World) :
  (forall l, p (Printed l) = false) ->
  List.filter p (trace (print line st)) = List.filter p (trace st).
Proof.
  intros Hp. cbn [trace print emit]. rewrite List.filter_app. cbn [List.filter].
  now rewrite Hp, app_nil_r.
Qed.

(** One answered query: one index query and one chat request more. *)
Lemma answer_counts query (st st' : state World) :
  answer_one query st = (Ok tt, st') ->
  length (List.filter is_index_query (trace st')) = S (length (List.filter is_index_query (trace st)))
  /\ length (List.filter is_chat_request (trace st')) = S (length (List.filter is_chat_request (trace st))).
Proof.
  unfold answer_query.
  set (s0 := print "  [1/4] Searching vector database..." _).
  pose proof (retrieve_index_queries World embeddings_create index_query md5_hexdigest
                PINECONE_VECTOR_DIM query TOP_K s0) as Hindex.
  pose proof (retrieve_trace_ignored World embeddings_create index_query md5_hexdigest
                PINECONE_VECTOR_DIM is_chat_request query TOP_K s0) as Hchat.
  destruct (retrieve query TOP_K s0) as [matches s1]. cbn [snd] in Hindex, Hchat.
  destruct (map_result (fun m => dict_item m "id") matches) as [match_ids|e]; [|discriminate].
  set (s2 := print "  [3/4] Fetching knowledge graph relationships..." _).
  pose proof (expand_trace_ignored float_repr World run_neighbours run_cities is_index_query
                match_ids s2) as Hgi.
  pose proof (expand_trace_ignored float_repr World run_neighbours run_cities is_chat_request
                match_ids s2) as Hgc.
  destruct (expand match_ids s2) as [[[facts conns]|e] s3]; [|discriminate]. cbn [snd] in Hgi, Hgc.
  destruct (assemble query matches facts conns) as [prompt|e]; [|discriminate].
  set (s4 := print _ s3). rewrite complete_unfold.
  intros H. injection H as <-.
  destruct (print_all_cases
              [ newline +:+ rule; "🤖 ASSISTANT RESPONSE"; rule +:+ newline;
                py_str float_repr
                  (match fst (chat_create CHAT_MODEL prompt 800 0.3%float (world s4)) ≫= first_item with
                   | Ok content => content
                   | Raise e => VStr ("Error calling OpenAI: " +:+ exn_str e)
                   end);
                newline +:+ rule; newline +:+ "📊 Context Used:";
                "  • Vector matches: " +:+ pretty (length matches);
                "  • Graph relationships: " +:+ pretty (length facts);
                "  • City connections: " +:+ pretty (length conns);
                "  • Cached embeddings: "
                +:+ pretty (size (EMBEDDING_CACHE
                                    (set_world (snd (chat_create CHAT_MODEL prompt 800 0.3%float (world s4)))
                                       (emit (ChatRequest CHAT_MODEL prompt 800 0.3%float) s4))));
                newline +:+ rule +:+ newline ]
              (set_world (snd (chat_create CHAT_MODEL prompt 800 0.3%float (world s4)))
                 (emit (ChatRequest CHAT_MODEL prompt 800 0.3%float) s4))) as [_ [_ Hprints]].
  rewrite !Hprints by reflexivity.
  cbn [trace set_world emit]. rewrite !List.filter_app. cbn [List.filter is_index_query is_chat_request].
  unfold s4. rewrite !print_ignored by reflexivity.
  rewrite Hgi, Hgc by (split; reflexivity). unfold s2. rewrite !print_ignored by reflexivity.
  rewrite Hindex, Hchat by (try split; reflexivity). unfold s0. rewrite !print_ignored by reflexivity.
  rewrite !length_app. cbn [length]. lia.
Qed.

Lemma loop_stops before stop after (st : state World) :
  ends_session (str_strip stop) = true ->
  loop (before ++ stop :: after) st = loop (before ++ [stop]) st.
Proof.
  intros Hstop. revert st. induction before as [|line before IH]; intros st; cbn [app chat_loop].
  - now rewrite Hstop.
  - destruct (ends_session (str_strip line)); [reflexivity|].
    destruct (answer_one (str_strip line) _) as [[[]|e] st1]; [apply IH | reflexivity].
Qed.

(** X23: the interactive session stops at the first line that is blank or is
    exit or quit in any letter case (once stripped): the lines after it are
    never read, and the end of the input is not reached. *)
Theorem session_stops_at_first_end (before : list string) (stop : string) (after : list string)
    (st : state World) :
  ends_session (str_strip stop) = true ->
  session (before ++ stop :: after) st = session (before ++ [stop]) st
  /\ fst (session (before ++ stop :: after) st) <> InputExhausted.
Proof.
  intros Hstop. unfold interactive_chat. split; [now apply loop_stops|].
  generalize (print_all banner st). induction before as [|line before IH]; intros s; cbn [app chat_loop].
  - rewrite Hstop. discriminate.
  - destruct (ends_session (str_strip line)); [discriminate|].
    destruct (answer_one (str_strip line) _) as [[[]|e] st1]; [apply IH | discriminate].
Qed.

Lemma loop_counts queries stop after (st : state World) :
  forallb (fun line => negb (ends_session (str_strip line))) queries = true ->
  ends_session (str_strip stop) = true ->
  fst (loop (queries ++ stop :: after) st) = Finished ->
  let st' := snd (loop (queries ++ stop :: after) st) in
  length (List.filter is_index_query (trace st'))
  = (length (List.filter is_index_query (trace st)) + length queries)%nat
  /\ length (List.filter is_chat_request (trace st'))
     = (length (List.filter is_chat_request (trace st)) + length queries)%nat.
Proof.
  intros Hqueries Hstop. revert st.
  induction queries as [|line queries IH]; intros st; cbn [app chat_loop].
  - rewrite Hstop. cbn [fst snd]. intros _. rewrite !print_ignored by reflexivity. cbn [length]. lia.
  - cbn [forallb] in Hqueries. apply andb_true_iff in Hqueries as [Hline Hrest].
    apply negb_true_iff in Hline. rewrite Hline.
    destruct (answer_one (str_strip line) _) as [[[]|e] st1] eqn:Hanswer; [|discriminate].
    intros Hend. destruct (IH Hrest st1 Hend) as [Hi Hc].
    destruct (answer_counts _ _ _ Hanswer) as [Hai Hac].
    rewrite !print_ignored in Hai, Hac by reflexivity.
    cbn zeta in Hi, Hc. rewrite Hi, Hc, Hai, Hac. cbn [length]. lia.
Qed.

(** X24: a session that ends by an ending line has sent exactly one index
    query and one chat request for each line answered before it. *)
Theorem session_one_request_per_query (queries : list string) (stop : string) (after : list string)
    (st : state World) :
  forallb (fun line => negb (ends_session (str_strip line))) queries = true ->
  ends_session (str_strip stop) = true ->
  fst (session (queries ++ stop :: after) st) = Finished ->
  let st' := snd (session (queries ++ stop :: after) st) in
  length (List.filter is_index_query (trace st'))
  = (length (List.filter is_index_query (trace st)) + length queries)%nat
  /\ length (List.filter is_chat_request (trace st'))
     = (length (List.filter is_chat_request (trace st)) + length queries)%nat.
Proof.
  intros Hqueries Hstop Hend. unfold interactive_chat in *.
  destruct (loop_counts queries stop after (print_all banner st) Hqueries Hstop Hend) as [Hi Hc].
  cbn zeta in *. destruct (print_all_cases banner st) as [_ [_ Hprints]].
  rewrite !Hprints in Hi, Hc by reflexivity. now split.
Qed.

(** X25: without a line that ends it the session does not finish normally: it
    ends when [input] finds the end of the input or when an exception leaves
    the loop. *)
Theorem session_needs_end_line (lines : list string) (st : state World) :
  forallb (fun line => negb (ends_session (str_strip line))) lines = true ->
  fst (session lines st) <> Finished.
Proof.
  unfold interactive_chat. generalize (print_all banner st).
  induction lines as [|line lines IH]; intros s Hlines; cbn [chat_loop]; [discriminate|].
  cbn [forallb] in Hlines. apply andb_true_iff in Hlines as [Hline Hrest].
  apply negb_true_iff in Hline. rewrite Hline.
  destruct (answer_one (str_strip line) _) as [[[]|e] st1]; [now apply IH | discriminate].
Qed.

End EndpointMore.

(** ** The further scenarios, checked *)

Section FurtherScenariosChecked.

#[local] Existing Instance sample_unicode.

Lemma detect_theme_first_wins_witness :
  detect_theme "A family ADVENTURE in Sapa" = "adventure".
Proof.
  apply (detect_theme_first_wins _ ["romantic"] "adventure" ["cultural"; "family"]).
  - reflexivity.
  - apply str_contains_spec. reflexivity.
  - intros t [<- | []] Hocc. apply str_contains_spec in Hocc. discriminate.
Defined.

Lemma filter_returns_sublist_witness :
  sublist [beach_fact] [plain_fact; beach_fact; plain_fact]
  /\ (length [beach_fact] <= 3)%nat.
Proof.
  apply (filter_returns_sublist sample_float_repr [plain_fact; beach_fact; plain_fact] "romantic").
  reflexivity.
Defined.

Lemma filter_idempotent_witness :
  exists out,
    filter_by_theme sample_float_repr eleven_facts "family" = Ok out
    /\ filter_by_theme sample_float_repr out "family" = Ok out
    /\ length out = 10%nat.
Proof.
  destruct (filter_idempotent sample_float_repr eleven_facts "family" eq_refl) as [out [Hone Htwo]].
  exists out. split; [exact Hone|]. split; [exact Htwo|].
  vm_compute in Hone. injection Hone as <-. reflexivity.
Defined.

Lemma render_match_tags_witness :
  render_match sample_float_repr sample_format_fixed match_hue
  = Ok "- [city_hue] Hue (City) in Hue - Score: 0.500 | Tags: heritage, culture, food".
Proof.
  exact (render_match_tags sample_float_repr sample_format_fixed match_hue (VStr "city_hue")
           [("name", VStr "Hue"); ("type", VStr "City"); ("city", VStr "Hue");
            ("tags", VList [VStr "heritage"; VStr "culture"; VStr "food"; VStr "river"])]
           "0.500" ["heritage"; "culture"; "food"; "river"] eq_refl eq_refl eq_refl eq_refl).
Defined.


Lemma city_block_lines_witness :
  city_context_of sample_float_repr two_connections
  = Ok (newline +:+ newline +:+ "City Connections (for multi-day planning):" +:+ newline
        +:+ "- attraction_1 → Hue" +:+ newline +:+ "- attraction_1 → Da Nang").
Proof.
  destruct (city_block_lines sample_float_repr two_connections eq_refl) as [rows [Hrows [_ Hblock]]].
  vm_compute in Hrows. injection Hrows as <-. exact Hblock.
Defined.

Lemma summarize_top_three_witness :
  exists lines,
    summarize_top_nodes sample_float_repr sample_format_fixed
      [match_hue; match_hoi_an; match_hue; match_broken]
    = Ok (str_join newline lines)
    /\ length lines = 3%nat.
Proof.
  destruct (summarize_top_three sample_float_repr sample_format_fixed
              [match_hue; match_hoi_an; match_hue; match_broken] eq_refl) as [lines [Hsum [Hlen _]]].
  exists lines. split; [exact Hsum | exact Hlen].
Defined.

Lemma embed_shared_digest_witness :
  let first := embed_text steady_embeddings colliding_digest 2 "Hue at night" start in
  let second := embed_text steady_embeddings colliding_digest 2 "Sapa in winter" (snd first) in
  fst second = [0.5%float; 0.25%float] /\ snd second = snd first.
Proof.
  cbn zeta.
  destruct (embed_shared_digest nat steady_embeddings colliding_digest 2 "Hue at night"
              "Sapa in winter" start eq_refl) as [Hvec Hstate].
  - right. exists [0.5%float; 0.25%float], []. reflexivity.
  - split; [exact Hvec | exact Hstate].
Defined.

Lemma embed_without_embedding_witness :
  fst (embed_text empty_embeddings sample_digest 2 "Hue at night" start) = [0%float; 0%float]
  /\ EMBEDDING_CACHE (snd (embed_text empty_embeddings sample_digest 2 "Hue at night" start)) = ∅.
Proof.
  destruct (embed_without_embedding nat empty_embeddings sample_digest 2 "Hue at night" start
              eq_refl eq_refl) as [Hzero [Hcache _]].
  split; [exact Hzero | exact Hcache].
Defined.

Lemma retrieve_with_zero_vector_witness :
  let out := pinecone_query down_embeddings ranked_index sample_digest 2 "Hue at night" 1 start in
  fst out = [match_hue]
  /\ List.filter is_index_query (trace (snd out)) = [IndexQuery [0%float; 0%float] 1].
Proof.
  cbn zeta.
  destruct (retrieve_with_zero_vector nat down_embeddings ranked_index sample_digest 2
              "Hue at night" 1%nat start (ServiceError "Connection error.") eq_refl eq_refl)
    as [Hout [Hsent _]].
  split; [exact Hout | exact Hsent].
Defined.

Lemma capped_neighbours_limit : neighbours_honour_limit capped_neighbours.
Proof.
  intros q nid w n Hq. unfold capped_neighbours. cbn [fst fetched]. rewrite Hq.
  cbn [default from_option id]. rewrite length_firstn. lia.
Qed.

Lemma expand_facts_capped_witness :
  exists facts conns,
    fst (fetch_graph_context sample_float_repr capped_neighbours sample_cities
           [VStr "city_hue"; VStr "city_hue"] start) = Ok (facts, conns)
    /\ (length facts <= 20)%nat.
Proof.
  exact (expand_facts_capped sample_float_repr nat capped_neighbours sample_cities
           [VStr "city_hue"; VStr "city_hue"] start capped_neighbours_limit).
Defined.

Lemma endpoint_without_matches_witness :
  let out := ask sample_float_repr sample_format_fixed steady_embeddings down_index sample_neighbours
               sample_cities steady_chat sample_digest 2 sample_query start in
  fst out = ([("answer", VStr "Day 1: the citadel of Hue.")], 200)
  /\ List.filter is_graph_query (trace (snd out)) = []
  /\ List.filter is_chat_request (trace (snd out))
     = [ChatRequest CHAT_MODEL (bare_prompt "A romantic week in Hue") 800 0.3%float].
Proof.
  cbn zeta.
  destruct (endpoint_without_matches sample_float_repr sample_format_fixed nat steady_embeddings
              down_index sample_neighbours sample_cities steady_chat sample_digest 2 sample_query
              start (ServiceError "Connection error.")) as [[answer Hanswer] [Hgraph Hchat]].
  - discriminate.
  - reflexivity.
  - split; [|split; [exact Hgraph | exact Hchat]].
    rewrite Hanswer. vm_compute in Hanswer. injection Hanswer as <-. reflexivity.
Defined.

Lemma endpoint_match_without_id_witness :
  fst (ask sample_float_repr sample_format_fixed steady_embeddings anonymous_index sample_neighbours
         sample_cities steady_chat sample_digest 2 sample_query start)
  = ([("error", VStr "'id'")], 500).
Proof.
  rewrite (endpoint_match_without_id sample_float_repr sample_format_fixed nat steady_embeddings
             anonymous_index sample_neighbours sample_cities steady_chat sample_digest 2
             sample_query start); [reflexivity | discriminate | reflexivity].
Defined.

Lemma endpoint_untyped_fact_witness :
  exists msg,
    fst (ask sample_float_repr sample_format_fixed steady_embeddings ranked_index nameless_neighbours
           sample_cities steady_chat sample_digest 2 sample_query start)
    = ([("error", VStr msg)], 500).
Proof.
  edestruct (endpoint_untyped_fact sample_float_repr sample_format_fixed nat steady_embeddings
               ranked_index nameless_neighbours sample_cities steady_chat sample_digest 2
               sample_query start) as [msg Hmsg].
  - discriminate.
  - discriminate.
  - vm_compute. reflexivity.
  - vm_compute. reflexivity.
  - reflexivity.
  - exists msg. now rewrite Hmsg.
Defined.

Lemma session_stops_at_first_end_witness :
  interactive_chat sample_float_repr sample_format_fixed steady_embeddings ranked_index
    sample_neighbours sample_cities steady_chat sample_digest 2
    ["A romantic week in Hue"; ideographic_space +:+ "QUIT "; "A week in Sapa"] start
  = interactive_chat sample_float_repr sample_format_fixed steady_embeddings ranked_index
      sample_neighbours sample_cities steady_chat sample_digest 2
      ["A romantic week in Hue"; ideographic_space +:+ "QUIT "] start.
Proof.
  exact (proj1 (session_stops_at_first_end sample_float_repr sample_format_fixed nat
                  steady_embeddings ranked_index sample_neighbours sample_cities steady_chat
                  sample_digest 2 ["A romantic week in Hue"] (ideographic_space +:+ "QUIT ")
                  ["A week in Sapa"] start eq_refl)).
Defined.

Lemma session_one_request_per_query_witness :
  let st' := snd (interactive_chat sample_float_repr sample_format_fixed steady_embeddings
                    ranked_index sample_neighbours sample_cities steady_chat sample_digest 2
                    ["A romantic week in Hue"; "Hue again"; ""; "A week in Sapa"] start) in
  length (List.filter is_index_query (trace st')) = 2%nat
  /\ length (List.filter is_chat_request (trace st')) = 2%nat.
Proof.
  exact (session_one_request_per_query sample_float_repr sample_format_fixed nat
           steady_embeddings ranked_index sample_neighbours sample_cities steady_chat
           sample_digest 2 ["A romantic week in Hue"; "Hue again"] "" ["A week in Sapa"] start
           eq_refl eq_refl eq_refl).
Defined.

Lemma session_needs_end_line_witness :
  fst (interactive_chat sample_float_repr sample_format_fixed steady_embeddings ranked_index
         sample_neighbours sample_cities steady_chat sample_digest 2
         ["A romantic week in Hue"] start) = InputExhausted.
Proof.
  pose proof (session_needs_end_line sample_float_repr sample_format_fixed nat steady_embeddings
                ranked_index sample_neighbours sample_cities steady_chat sample_digest 2
                ["A romantic week in Hue"] start eq_refl) as Hnot.
  destruct (fst (interactive_chat sample_float_repr sample_format_fixed steady_embeddings
                   ranked_index sample_neighbours sample_cities steady_chat sample_digest 2
                   ["A romantic week in Hue"] start)) eqn:Hend.
  - contradiction.
  - reflexivity.
  - vm_compute in Hend. discriminate.
Defined.

End FurtherScenariosChecked.
